(** * droughtmapper: a shallow embedding of [DroughtMapper]

    The program is a thin sequence of I/O steps: an HTTP fetch of a
    metadata document, a file-existence check used as a cache, an HTTP
    fetch of a zip archive and a write of that archive into the cache.

    The embedding threads the mapper object, the filesystem and the log of
    HTTP requests through a state-and-exception monad.  What the program
    delegates to libraries ([posixpath], [os], [datetime], [requests],
    [ElementTree]) is modelled next to it, each piece following the
    library's documented behaviour. *)

From Stdlib Require Import ZArith Lia Strings.Ascii Strings.String Strings.Byte.
From stdpp Require Import base option list gmap strings.

(** ** Strings as Python uses them *)

Module Str.

Definition is_slash (c : ascii) : bool := bool_decide (c = "/"%char).

(** [s.startswith('/')] *)
Definition starts_with_slash (s : string) : bool :=
  match s with
  | String c _ => is_slash c
  | EmptyString => false
  end.

(** [s.endswith('/')] *)
Fixpoint ends_with_slash (s : string) : bool :=
  match s with
  | EmptyString => false
  | String c EmptyString => is_slash c
  | String _ r => ends_with_slash r
  end.

(** ['/' in s] *)
Fixpoint has_slash (s : string) : bool :=
  match s with
  | EmptyString => false
  | String c r => is_slash c || has_slash r
  end.

(** [s == '/' * len(s)] *)
Fixpoint all_slashes (s : string) : bool :=
  match s with
  | EmptyString => true
  | String c r => is_slash c && all_slashes r
  end.

(** [s.rstrip('/')] *)
Fixpoint rstrip_slash (s : string) : string :=
  match s with
  | EmptyString => EmptyString
  | String c r =>
      match rstrip_slash r with
      | EmptyString => if is_slash c then EmptyString else String c EmptyString
      | r' => String c r'
      end
  end.

(** [(s[:i], s[i:])] for [i = s.rfind('/') + 1] *)
Fixpoint rpartition (s : string) : string * string :=
  match s with
  | EmptyString => (EmptyString, EmptyString)
  | String c r =>
      if has_slash r then
        let '(h, t) := rpartition r in (String c h, t)
      else if is_slash c then (String c EmptyString, r)
      else (EmptyString, s)
  end.

End Str.

(** ** [posixpath] *)

Module posixpath.

(** [posixpath.split]: the head loses its trailing slashes unless it
    consists of slashes only. *)
Definition split (p : string) : string * string :=
  let '(head, tail) := Str.rpartition p in
  let head :=
    if Str.all_slashes head then head else Str.rstrip_slash head in
  (head, tail).

Definition basename (p : string) : string := snd (Str.rpartition p).

Definition dirname (p : string) : string := fst (split p).

(** One step of the loop of [posixpath.join]. *)
Definition join2 (path b : string) : string :=
  if Str.starts_with_slash b then b
  else if bool_decide (path = "") || Str.ends_with_slash path then path +:+ b
  else path +:+ "/" +:+ b.

Definition join (a : string) (p : list string) : string :=
  foldl join2 a p.

End posixpath.

(** ** Exceptions *)

Inductive errno := EEXIST | ENOENT | ENOTDIR | EISDIR.

(** The Python exceptions the program can raise.  [HTTPError] is what
    [Response.raise_for_status] raises, [ConnectionError] stands for the
    exceptions of [requests.get] itself, [ParseError] is ElementTree's. *)
Inductive exn :=
| AttributeError
| TypeError
| ValueError
| ParseError
| ConnectionError
| HTTPError (status : Z)
| OSError (e : errno)
| RecursionError.

(** The error taxonomy of the design: which exceptions are a failed
    remote fetch, and which a filesystem failure. *)
Definition is_RemoteFetchError (e : exn) : bool :=
  match e with
  | HTTPError _ | ConnectionError | ParseError => true
  | _ => false
  end.

Definition is_FilesystemError (e : exn) : bool :=
  match e with
  | OSError _ => true
  | _ => false
  end.

(** ** The state-and-exception monad

    A computation runs on a state, and ends with a value or with a raised
    exception; the state it leaves is kept in both cases, as the effects of
    a Python call are when it raises. *)

Definition ST (S A : Type) : Type := S → (exn + A) * S.

Definition ret {S A} (a : A) : ST S A := λ s, (inr a, s).

Definition bind {S A B} (m : ST S A) (k : A → ST S B) : ST S B :=
  λ s, match m s with
       | (inr a, s') => k a s'
       | (inl e, s') => (inl e, s')
       end.

Definition raise {S A} (e : exn) : ST S A := λ s, (inl e, s).

Definition gets {S A} (f : S → A) : ST S A := λ s, (inr (f s), s).

Definition modify {S} (f : S → S) : ST S unit := λ s, (inr tt, f s).

(** A result computed without effects: returned, or raised. *)
Definition lift_result {S A} (r : exn + A) : ST S A :=
  match r with
  | inl e => raise e
  | inr a => ret a
  end.

(** [try: m except e if handles e: handler] *)
Definition try_except {S A} (m : ST S A) (handles : exn → bool)
    (handler : ST S A) : ST S A :=
  λ s, match m s with
       | (inl e, s') => if handles e then handler s' else (inl e, s')
       | r => r
       end.

#[global] Instance ST_ret S : MRet (ST S) := λ A, ret.
#[global] Instance ST_bind S : MBind (ST S) := λ A B k m, bind m k.

(** ** [datetime] *)

Module datetime.

#[local] Open Scope Z_scope.

Record datetime := mk {
  year : Z; month : Z; day : Z;
  hour : Z; minute : Z; second : Z; microsecond : Z
}.

Definition is_leap (y : Z) : bool :=
  (y mod 4 =? 0) && (negb (y mod 100 =? 0) || (y mod 400 =? 0)).

Definition days_in_month (y m : Z) : Z :=
  match m with
  | 1 | 3 | 5 | 7 | 8 | 10 | 12 => 31
  | 4 | 6 | 9 | 11 => 30
  | 2 => if is_leap y then 29 else 28
  | _ => 0
  end.

(** The check of the [datetime] constructor on the date fields
    ([MINYEAR = 1], [MAXYEAR = 9999]). *)
Definition valid_date (y m d : Z) : bool :=
  (1 <=? y) && (y <=? 9999) && (1 <=? m) && (m <=? 12)
  && (1 <=? d) && (d <=? days_in_month y m).

Definition valid (dt : datetime) : bool :=
  valid_date (year dt) (month dt) (day dt)
  && (0 <=? hour dt) && (hour dt <? 24)
  && (0 <=? minute dt) && (minute dt <? 60)
  && (0 <=? second dt) && (second dt <? 60)
  && (0 <=? microsecond dt) && (microsecond dt <? 1000000).

(** The decimal digit of [n mod 10]: the characters ['0'] to ['9'] have
    the codes 48 to 57. *)
Definition digit (n : Z) : ascii := ascii_of_N (Z.to_N (48 + n mod 10)).

(** The value of a decimal digit, [None] for any other character. *)
Definition digit_value (c : ascii) : option Z :=
  let code := Z.of_N (N_of_ascii c) in
  if (48 <=? code) && (code <=? 57) then Some (code - 48) else None.

(** [width] decimal digits of [n], zero-padded: the C format "%0<width>d"
    on the range [n < 10 ^ width], which is the range of every field it is
    used for. *)
Fixpoint zero_padded (width : nat) (n : Z) : string :=
  match width with
  | O => ""
  | S w => zero_padded w (n / 10) +:+ String (digit n) ""
  end.

(** The decimal digits of [n] with no padding, for [0 <= n]: the C
    format "%d".  [fuel] bounds the number of digits. *)
Fixpoint decimal_rec (fuel : nat) (n : Z) : string :=
  match fuel with
  | O => ""
  | S fuel =>
      if n <? 10 then String (digit n) ""
      else decimal_rec fuel (n / 10) +:+ String (digit n) ""
  end.

Definition decimal (n : Z) : string := decimal_rec (S (Z.to_nat n)) n.

(** The directives as the C library prints them: glibc, to which CPython
    hands the format, does not pad the year of [%Y], so a year below 1000
    comes with fewer than four digits; [%m], [%d], [%H], [%M] and [%S] are
    two digits. *)
Definition directive (c : ascii) (dt : datetime) : string :=
  match c with
  | "Y"%char => decimal (year dt)
  | "m"%char => zero_padded 2 (month dt)
  | "d"%char => zero_padded 2 (day dt)
  | "H"%char => zero_padded 2 (hour dt)
  | "M"%char => zero_padded 2 (minute dt)
  | "S"%char => zero_padded 2 (second dt)
  | "%"%char => "%"
  | _ => String "%"%char (String c "")
  end.

(** [dt.strftime(fmt)] for the numeric directives above; every other
    character of the format is copied. *)
Fixpoint strftime (fmt : string) (dt : datetime) : string :=
  match fmt with
  | EmptyString => EmptyString
  | String c r =>
      match r with
      | String c' r' =>
          if bool_decide (c = "%"%char)
          then directive c' dt +:+ strftime r' dt
          else String c (strftime r dt)
      | EmptyString => String c EmptyString
      end
  end.

(** *** [datetime.strptime(s, '%Y%m%d')]

    [_strptime] turns the format into the regular expression
    [(\d\d\d\d)(1[0-2]|0[1-9]|[1-9])(3[0-1]|[1-2]\d|0[1-9]|[1-9]| [1-9])],
    matches it at the start of the string (alternatives in order, with
    backtracking), rejects unconverted trailing data, and builds the
    date, which validates the fields.  A character of the model is a code
    point below 256, and the model is that of Python on ASCII text, where
    a digit is one of ['0'] to ['9']; the decimal digits of other scripts,
    which Python reads as digits too, are not in it. *)

Definition digit_in (lo hi : Z) (c : ascii) : option Z :=
  n ← digit_value c; if (lo <=? n) && (n <=? hi) then Some n else None.

Definition two (lo1 hi1 lo2 hi2 : Z) (s : string) : option (Z * string) :=
  match s with
  | String c1 (String c2 r) =>
      a ← digit_in lo1 hi1 c1; b ← digit_in lo2 hi2 c2; Some (10 * a + b, r)
  | _ => None
  end.

Definition one (lo hi : Z) (s : string) : option (Z * string) :=
  match s with
  | String c r => a ← digit_in lo hi c; Some (a, r)
  | _ => None
  end.

Definition space_one (s : string) : option (Z * string) :=
  match s with
  | String " "%char r => one 1 9 r
  | _ => None
  end.

Definition re_Y (s : string) : option (Z * string) :=
  '(hi, r) ← two 0 9 0 9 s; '(lo, r') ← two 0 9 0 9 r; Some (100 * hi + lo, r').

(** The matches of each group, most preferred first. *)
Definition re_m (s : string) : list (Z * string) :=
  option_list (two 1 1 0 2 s) ++ option_list (two 0 0 1 9 s)
  ++ option_list (one 1 9 s).

Definition re_d (s : string) : list (Z * string) :=
  option_list (two 3 3 0 1 s) ++ option_list (two 1 2 0 9 s)
  ++ option_list (two 0 0 1 9 s) ++ option_list (one 1 9 s)
  ++ option_list (space_one s).

Definition re_Ymd (s : string) : option (Z * Z * Z * string) :=
  '(y, r1) ← re_Y s;
  head (flat_map
          (λ '(m, r2), (λ '(d, r3), (y, m, d, r3)) <$> re_d r2)
          (re_m r1)).

Definition strptime_Ymd (s : string) : exn + datetime :=
  match re_Ymd s with
  | None => inl ValueError
  | Some (y, m, d, rest) =>
      if bool_decide (rest = "") && valid_date y m d
      then inr (mk y m d 0 0 0 0)
      else inl ValueError
  end.

End datetime.

Abbreviation datetime := datetime.datetime.

(** ** [xml.etree.ElementTree] *)

Module ElementTree.

#[local] Unset Elimination Schemes.
Inductive Element :=
| Elem (tag : string) (attrib : gmap string string) (children : list Element).
#[local] Set Elimination Schemes.

Definition tag (e : Element) : string := let 'Elem t _ _ := e in t.
Definition attrib (e : Element) : gmap string string := let 'Elem _ a _ := e in a.
Definition children (e : Element) : list Element := let 'Elem _ _ c := e in c.

(** [e.find(name)] for a plain tag name: the first direct child with
    that tag, or [None]. *)
Definition find (name : string) (e : Element) : option Element :=
  head (filter (λ c, tag c = name) (children e)).

(** [e.get(key)] *)
Definition get (key : string) (e : Element) : option string :=
  attrib e !! key.

End ElementTree.

Abbreviation Element := ElementTree.Element.

(** ** [requests] *)

Module requests.

#[local] Open Scope Z_scope.

Record Response := mkResponse {
  status_code : Z;
  content : list byte;
  text : string
}.

(** [r.raise_for_status()]: client (4xx) and server (5xx) error
    statuses raise [HTTPError]; every other status passes. *)
Definition raise_for_status (r : Response) : exn + unit :=
  if (400 <=? status_code r) && (status_code r <? 600)
  then inl (HTTPError (status_code r))
  else inr tt.

End requests.

Abbreviation Response := requests.Response.

(** ** The filesystem

    A path names a regular file with its content, a directory, or nothing.
    Paths are identified by their spelling: the mapper builds every path
    from a resolved real path, which has one spelling.  There are no
    permissions and no quotas: an operation fails only for the shape of the
    tree. *)

Inductive node :=
| File (data : list byte)
| Dir.

Abbreviation FS := (gmap string node).

Module os.

(** What [stat] finds at a path.  The root always is a directory. *)
Definition stat (fs : FS) (p : string) : option node :=
  if Str.starts_with_slash p && Str.all_slashes p then Some Dir
  else fs !! p.

(** [os.path.exists] *)
Definition exists_ (fs : FS) (p : string) : bool :=
  bool_decide (is_Some (stat fs p)).

(** Creating the entry [name] needs the directory it lies in; a name with
    no directory part lies in the current directory. *)
Definition check_parent (name : string) : ST FS unit :=
  let parent := posixpath.dirname name in
  if bool_decide (parent = "") then
    if bool_decide (name = "") then raise (OSError ENOENT) else ret tt
  else
    st ← gets (λ fs, stat fs parent);
    match st with
    | Some Dir => ret tt
    | Some (File _) => raise (OSError ENOTDIR)
    | None => raise (OSError ENOENT)
    end.

(** [os.mkdir(name)] *)
Definition mkdir (name : string) : ST FS unit :=
  st ← gets (λ fs, stat fs name);
  match st with
  | Some _ => raise (OSError EEXIST)
  | None => check_parent name;; modify (insert name Dir)
  end.

Definition is_EEXIST (e : exn) : bool :=
  match e with
  | OSError EEXIST => true
  | _ => false
  end.

(** [os.makedirs(name)], with [exist_ok=False].  The recursion is on the
    head of [name], a proper prefix of it; [fuel] bounds its depth. *)
Fixpoint makedirs_rec (fuel : nat) (name : string) : ST FS unit :=
  match fuel with
  | 0 => raise RecursionError
  | S fuel =>
      let '(head, tail) := posixpath.split name in
      let '(head, tail) :=
        if bool_decide (tail = "") then posixpath.split head
        else (head, tail) in
      head_exists ← gets (λ fs, exists_ fs head);
      if negb (bool_decide (head = "")) && negb (bool_decide (tail = ""))
         && negb head_exists
      then
        try_except (makedirs_rec fuel head) is_EEXIST (ret tt);;
        if bool_decide (tail = ".") then ret tt else mkdir name
      else mkdir name
  end.

Definition makedirs (name : string) : ST FS unit :=
  makedirs_rec (S (String.length name)) name.

(** [with open(path, 'wb') as f: f.write(data)] *)
Definition write_binary (path : string) (data : list byte) : ST FS unit :=
  st ← gets (λ fs, stat fs path);
  match st with
  | Some Dir => raise (OSError EISDIR)
  | Some (File _) => modify (insert path (File data))
  | None => check_parent path;; modify (insert path (File data))
  end.

End os.

(** ** The mapper and the world it runs in *)

(** An instance of [DroughtMapper]: its [cache] attribute, and its
    [_latest_date] attribute, [None] while the attribute is not set. *)
Record DroughtMapper := mkMapper {
  cache : string;
  _latest_date : option datetime
}.

(** The state a method runs on: the instance, the filesystem, and the URLs
    requested so far, oldest first. *)
Record State := mkState {
  self : DroughtMapper;
  fs : FS;
  requests_log : list string
}.

Definition set_latest_date (d : datetime) (s : State) : State :=
  mkState (mkMapper (cache (self s)) (Some d)) (fs s) (requests_log s).

Definition log_request (url : string) (s : State) : State :=
  mkState (self s) (fs s) (requests_log s ++ [url]).

(** Runs a filesystem operation on the filesystem of the state. *)
Definition lift_fs {A} (m : ST FS A) : ST State A :=
  λ s, let '(r, fs') := m (fs s) in (r, mkState (self s) fs' (requests_log s)).

Definition metadata_url : string :=
  "http://droughtmonitor.unl.edu/tabular/total.xml".

Definition shapefile_url_format : string :=
  "http://droughtmonitor.unl.edu/data/shapefiles_m/USDM_%Y%m%d_M.zip".

Section DroughtMapper.

(** [os.path.realpath]: depends on the working directory and on the
    symbolic links of the machine. *)
Variable realpath : string → string.

(** The remote side: the response to a GET of a URL, given the requests
    made before it; [None] when the request itself fails. *)
Variable remote : list string → string → option Response.

(** [ElementTree.fromstring]; [None] when the text is not well-formed. *)
Variable fromstring : string → option Element.

(** [requests.get(url)] *)
Definition requests_get (url : string) : ST State Response :=
  history ← gets requests_log;
  modify (log_request url);;
  match remote history url with
  | Some r => ret r
  | None => raise ConnectionError
  end.

Definition ElementTree_fromstring (text : string) : ST State Element :=
  match fromstring text with
  | Some xml => ret xml
  | None => raise ParseError
  end.

Definition default_cache : string := ".cache".

Definition __init__ (cache : string) : DroughtMapper :=
  mkMapper (realpath cache) None.

(** Lines 41-55 of [get_latest_date]: fetch the metadata document, read
    the date of its first week, store it on the instance. *)
Definition fetch_latest_date : ST State datetime :=
  r ← requests_get metadata_url;
  xml ← ElementTree_fromstring (requests.text r);
  match ElementTree.find "week" xml with
  | None => raise AttributeError          (* None.get *)
  | Some week =>
      match ElementTree.get "date" week with
      | None => raise TypeError           (* strptime(None, ...) *)
      | Some date =>
          d ← lift_result (datetime.strptime_Ymd date);
          modify (set_latest_date d);;
          ret d
      end
  end.

(** [getattr(self, '_latest_date', None) and not ignore_cache]: a
    [datetime] is always true. *)
Definition get_latest_date (ignore_cache : bool) : ST State datetime :=
  memo ← gets (λ s, _latest_date (self s));
  match memo with
  | Some latest_date =>
      if negb ignore_cache then ret latest_date else fetch_latest_date
  | None => fetch_latest_date
  end.

(** The cache path of a date: lines 66-68 of [get_shapefile]. *)
Definition shapefile_url (date : datetime) : string :=
  datetime.strftime shapefile_url_format date.

Definition shapefile_path (cache : string) (date : datetime) : string :=
  posixpath.join cache ["zip"; posixpath.basename (shapefile_url date)].

(** [date] is [None] when the caller passes Python's [None]. *)
Definition get_shapefile (date : option datetime) (ignore_cache : bool)
  : ST State string :=
  match date with
  | None => raise AttributeError          (* None.strftime *)
  | Some date =>
      let url := shapefile_url date in
      cache ← gets (λ s, cache (self s));
      let path := shapefile_path cache date in
      let dirname := posixpath.dirname path in
      cached ← gets (λ s, os.exists_ (fs s) path);
      if cached && negb ignore_cache then ret path
      else
        r ← requests_get url;
        lift_result (requests.raise_for_status r);;
        dir_exists ← gets (λ s, os.exists_ (fs s) dirname);
        (if negb dir_exists then lift_fs (os.makedirs dirname) else ret tt);;
        lift_fs (os.write_binary path (requests.content r));;
        ret path
  end.

(** The three methods below have a docstring and no body, or almost:
    each returns [None]. *)
Definition get_us : ST State unit := ret tt.

Definition project_shapefile (shapefile : string) : ST State unit := ret tt.

Definition raster (shapefile : string) (outfile : option string)
  : ST State unit :=
  us ← get_us;
  ret tt.

Definition render (date : option datetime) (outfile : option string)
  : ST State unit :=
  shapefile ← get_shapefile date false;
  raster shapefile outfile.

End DroughtMapper.

(** ** The words of the specification *)

Module Spec.

#[local] Open Scope Z_scope.

(** A date attribute "formatted as YYYYMMDD": exactly eight decimal
    digits, four of the year, two of the month, two of the day, naming a
    date of the calendar. *)
Definition parse_YYYYMMDD (s : string) : option datetime :=
  match s with
  | String y1 (String y2 (String y3 (String y4
      (String m1 (String m2 (String d1 (String d2 EmptyString))))))) =>
      y1 ← datetime.digit_value y1; y2 ← datetime.digit_value y2;
      y3 ← datetime.digit_value y3; y4 ← datetime.digit_value y4;
      m1 ← datetime.digit_value m1; m2 ← datetime.digit_value m2;
      d1 ← datetime.digit_value d1; d2 ← datetime.digit_value d2;
      let y := 1000 * y1 + 100 * y2 + 10 * y3 + y4 in
      let m := 10 * m1 + m2 in
      let d := 10 * d1 + d2 in
      if datetime.valid_date y m d
      then Some (datetime.mk y m d 0 0 0 0)
      else None
  | _ => None
  end.

(** The 8-digit form of a date. *)
Definition YYYYMMDD (date : datetime) : string :=
  datetime.zero_padded 4 (datetime.year date)
  +:+ datetime.zero_padded 2 (datetime.month date)
  +:+ datetime.zero_padded 2 (datetime.day date).

(** The archive endpoint, [.../USDM_<YYYYMMDD>_M.zip]. *)
Definition archive_name (date : datetime) : string :=
  "USDM_" +:+ YYYYMMDD date +:+ "_M.zip".

Definition archive_url (date : datetime) : string :=
  "http://droughtmonitor.unl.edu/data/shapefiles_m/" +:+ archive_name date.

(** The first week element of a document: a child tagged [week] with no
    child tagged [week] before it. *)
Definition first_week (xml week : Element) : Prop :=
  ∃ before after,
    ElementTree.children xml = before ++ week :: after
    ∧ ElementTree.tag week = "week"
    ∧ Forall (λ c, ElementTree.tag c ≠ "week") before.

(** A name of one directory entry. *)
Definition plain_name (n : string) : Prop :=
  n ≠ "" ∧ n ≠ "." ∧ n ≠ ".." ∧ Str.has_slash n = false.

(** [p] lies strictly under [root]: it is [root] extended by one or more
    entry names. *)
Definition strictly_under (root p : string) : Prop :=
  ∃ names,
    names ≠ [] ∧ Forall plain_name names ∧ p = posixpath.join root names.

(** The spelling of a resolved absolute path, from its entry names:
    [/] for the root, [/a/b] for the entry [b] of the entry [a] of the
    root. *)
Definition slash_names (names : list string) : string :=
  foldr (λ n acc, "/" +:+ n +:+ acc) "" names.

Definition abs_path (names : list string) : string :=
  match names with
  | [] => "/"
  | _ => slash_names names
  end.


(** An HTTP error status: a client error (4xx) or a server error (5xx). *)
Definition error_status (status : Z) : Prop := 400 ≤ status < 600.

End Spec.

(** ** A sample world *)

Module Sample.

#[local] Open Scope Z_scope.

Definition date_20140624 : datetime := datetime.mk 2014 6 24 0 0 0 0.

Definition metadata_text : string := "<root><week date='20140624'/></root>".

Definition metadata_xml : Element :=
  ElementTree.Elem "root" ∅
    [ElementTree.Elem "week" {["date" := "20140624"]} [];
     ElementTree.Elem "week" {["date" := "20140617"]} []].

Definition fromstring (text : string) : option Element :=
  if bool_decide (text = metadata_text) then Some metadata_xml else None.

Definition archive : list byte := [x50; x4b; x03; x04].

(** A remote side that answers every request with the given status, the
    metadata document at its URL and the archive elsewhere. *)
Definition remote (status : Z) (history : list string) (url : string)
  : option Response :=
  if bool_decide (url = metadata_url)
  then Some (requests.mkResponse status [] metadata_text)
  else Some (requests.mkResponse status archive "").

Definition realpath (p : string) : string := "/home/user/" +:+ p.

(** A new mapper on an empty disk. *)
Definition fresh : State :=
  mkState (__init__ realpath default_cache) ∅ [].


Definition archive_path : string :=
  "/home/user/.cache/zip/USDM_20140624_M.zip".

(** A disk where the archive of 2014-06-24 is in the cache already, with
    some other content. *)
Definition cached : State :=
  mkState (__init__ realpath default_cache)
    {["/home/user/.cache" := Dir; "/home/user/.cache/zip" := Dir;
      archive_path := File [x00]]} [].

End Sample.

(** ** More words for the properties *)


(** Two values of [datetime] on the same day of the calendar. *)
Definition same_day (d1 d2 : datetime) : Prop :=
  datetime.year d1 = datetime.year d2
  ∧ datetime.month d1 = datetime.month d2
  ∧ datetime.day d1 = datetime.day d2.

(** The date fields are those of a date of the calendar, as they are in
    every [datetime] Python builds. *)
Definition calendar_date (d : datetime) : Prop :=
  datetime.valid_date (datetime.year d) (datetime.month d) (datetime.day d)
  = true.

(** A text of ASCII characters, the text on which the models of the
    libraries are those of Python. *)
Fixpoint ascii_text (s : string) : bool :=
  match s with
  | EmptyString => true
  | String c r => (N_of_ascii c <? 128)%N && ascii_text r
  end.

(** The date stored on the instance, if any, is one Python can build. *)
Definition stored_date_valid (s : State) : Prop :=
  ∀ d, _latest_date (self s) = Some d → datetime.valid d = true.

(** ** More sample worlds *)

Module Cases.

#[local] Open Scope Z_scope.

(** A remote side whose every answer is a page that is not XML. *)
Definition garbled_remote (history : list string) (url : string)
  : option Response :=
  Some (requests.mkResponse 200 [] "<html>").

(** A document whose only week carries no date. *)
Definition undated_xml : Element :=
  ElementTree.Elem "root" ∅ [ElementTree.Elem "week" ∅ []].

Definition undated_fromstring (text : string) : option Element :=
  Some undated_xml.

(** A document whose only week carries a date with dashes. *)
Definition dashed_xml : Element :=
  ElementTree.Elem "root" ∅
    [ElementTree.Elem "week" {["date" := "2014-06-24"]} []].

Definition dashed_fromstring (text : string) : option Element :=
  Some dashed_xml.

(** Noon of the day of [Sample.date_20140624]. *)
Definition noon_20140624 : datetime := datetime.mk 2014 6 24 12 0 0 0.

(** A disk where a directory sits at the cache path of 2014-06-24. *)
Definition directory_at_path : State :=
  mkState (__init__ Sample.realpath default_cache)
    {["/home/user/.cache" := Dir; "/home/user/.cache/zip" := Dir;
      Sample.archive_path := Dir]} [].

End Cases.

(** ** Proof automation *)

(** Unfolds the operations of the monad and reads the fields of states. *)
Ltac st_unfold :=
  unfold mbind, ST_bind, mret, ST_ret, bind, ret, gets, modify, raise,
    lift_result, lift_fs, try_except in *;
  cbn [self fs requests_log cache _latest_date fst snd log_request
       set_latest_date negb andb orb] in *.

(** The ten cases of a decimal digit. *)
Ltac digit_cases n :=
  let H := fresh in
  assert (n = 0 ∨ n = 1 ∨ n = 2 ∨ n = 3 ∨ n = 4 ∨ n = 5 ∨ n = 6 ∨ n = 7
          ∨ n = 8 ∨ n = 9)%Z as H by lia;
  repeat destruct H as [H|H]; subst n.

(** * Properties *)

(** ** The library models on concrete inputs *)

Example basename_usdm :
  posixpath.basename
    "http://droughtmonitor.unl.edu/data/shapefiles_m/USDM_20140624_M.zip"
  = "USDM_20140624_M.zip".
Proof. reflexivity. Qed.

Example split_examples :
  posixpath.split "/a/b/c" = ("/a/b", "c") /\
  posixpath.split "/a" = ("/", "a") /\
  posixpath.split "//a" = ("//", "a") /\
  posixpath.split "a" = ("", "a") /\
  posixpath.split "/a/b//" = ("/a/b", "") /\
  posixpath.split "" = ("", "").
Proof. repeat split; reflexivity. Qed.

Example join_examples :
  posixpath.join "/c" ["zip"; "f.zip"] = "/c/zip/f.zip" /\
  posixpath.join "/" ["zip"; "f.zip"] = "/zip/f.zip" /\
  posixpath.join "" ["zip"; "f.zip"] = "zip/f.zip" /\
  posixpath.join "/c/" ["zip"; "f.zip"] = "/c/zip/f.zip" /\
  posixpath.join "/c" ["/zip"; "f.zip"] = "/zip/f.zip".
Proof. repeat split; reflexivity. Qed.

Example makedirs_examples :
  os.makedirs "/c/zip" ∅
    = (inr tt, <["/c/zip" := Dir]> (<["/c" := Dir]> ∅)) /\
  os.makedirs "/a/b/c" (<["/a" := File []]> ∅)
    = (inl (OSError ENOTDIR), <["/a" := File []]> ∅) /\
  os.makedirs "/a" (<["/a" := Dir]> ∅)
    = (inl (OSError EEXIST), <["/a" := Dir]> ∅) /\
  os.makedirs ".cache/zip" ∅
    = (inr tt, <[".cache/zip" := Dir]> (<[".cache" := Dir]> ∅)).
Proof. repeat split; vm_compute; reflexivity. Qed.

Example write_binary_examples :
  os.write_binary "/c/zip/f" [x01; x02] (<["/c/zip" := Dir]> ∅)
    = (inr tt, <["/c/zip/f" := File [x01; x02]]> (<["/c/zip" := Dir]> ∅)) /\
  os.write_binary "/c/zip/f" [x01] (<["/c/zip" := File []]> ∅)
    = (inl (OSError ENOTDIR), <["/c/zip" := File []]> ∅) /\
  os.write_binary "/c/zip/f" [x01] ∅ = (inl (OSError ENOENT), ∅).
Proof. repeat split; vm_compute; reflexivity. Qed.

(** ** Strings and paths *)

Lemma str_app_cons c s t : String c s +:+ t = String c (s +:+ t).
Proof. reflexivity. Qed.

Lemma str_app_empty_r s : s +:+ "" = s.
Proof.
  induction s as [|c s IH]; [reflexivity|].
  rewrite str_app_cons, IH. reflexivity.
Qed.

Lemma str_app_assoc s t u : (s +:+ t) +:+ u = s +:+ t +:+ u.
Proof.
  induction s as [|c s IH]; [reflexivity|].
  rewrite !str_app_cons, IH. reflexivity.
Qed.

Lemma str_length_app s t :
  String.length (s +:+ t) = (String.length s + String.length t)%nat.
Proof.
  induction s as [|c s IH]; [reflexivity|].
  rewrite str_app_cons. simpl. rewrite IH. reflexivity.
Qed.

Lemma has_slash_app s t :
  Str.has_slash (s +:+ t) = Str.has_slash s || Str.has_slash t.
Proof.
  induction s as [|c s IH]; [reflexivity|].
  rewrite str_app_cons. simpl. rewrite IH. apply orb_assoc.
Qed.

(** The last slash of [h/t] is the one before [t] when [t] has none. *)
Lemma rpartition_app h t :
  Str.has_slash t = false →
  Str.rpartition (h +:+ "/" +:+ t) = (h +:+ "/", t).
Proof.
  intros Ht. induction h as [|c h IH].
  - change ("" +:+ "/" +:+ t) with (String "/" t). simpl. rewrite Ht. reflexivity.
  - rewrite (str_app_cons c h). simpl. rewrite IH.
    rewrite has_slash_app. simpl. rewrite orb_true_r. reflexivity.
Qed.

Lemma basename_app h t :
  Str.has_slash t = false → posixpath.basename (h +:+ "/" +:+ t) = t.
Proof. intros Ht. unfold posixpath.basename. rewrite rpartition_app; done. Qed.

Lemma has_slash_false_inv c s :
  Str.has_slash (String c s) = false → Str.is_slash c = false ∧ Str.has_slash s = false.
Proof. simpl. apply orb_false_elim. Qed.

Lemma ends_with_slash_no_slash s : Str.has_slash s = false → Str.ends_with_slash s = false.
Proof.
  induction s as [|c s IH]; [reflexivity|].
  intros [Hc Hs]%has_slash_false_inv. simpl.
  destruct s; [exact Hc | exact (IH Hs)].
Qed.

Lemma ends_with_slash_app s t :
  t ≠ "" → Str.ends_with_slash (s +:+ t) = Str.ends_with_slash t.
Proof.
  intros Ht. induction s as [|c s IH]; [reflexivity|].
  rewrite str_app_cons. simpl.
  destruct (s +:+ t) eqn:E; [|exact IH].
  destruct s, t; try discriminate E. done.
Qed.

Lemma all_slashes_app s t :
  Str.all_slashes (s +:+ t) = Str.all_slashes s && Str.all_slashes t.
Proof.
  induction s as [|c s IH]; [reflexivity|].
  rewrite str_app_cons. simpl. rewrite IH. apply andb_assoc.
Qed.



Lemma plain_name_facts n :
  Spec.plain_name n →
  Str.starts_with_slash n = false ∧ Str.ends_with_slash n = false
  ∧ Str.all_slashes n = false ∧ (0 < String.length n)%nat.
Proof.
  intros (Hne & _ & _ & Hs).
  destruct n as [|c n]; [done|].
  apply has_slash_false_inv in Hs as Hs'. destruct Hs' as [Hc Hn].
  repeat split.
  - exact Hc.
  - apply ends_with_slash_no_slash, Hs.
  - simpl. rewrite Hc. reflexivity.
  - simpl. lia.
Qed.

Lemma slash_names_snoc l n :
  Spec.slash_names (l ++ [n]) = Spec.slash_names l +:+ "/" +:+ n.
Proof.
  induction l as [|a l IH]; simpl.
  - rewrite str_app_empty_r. reflexivity.
  - rewrite IH. rewrite !str_app_assoc. reflexivity.
Qed.

Lemma abs_path_snoc l n :
  Spec.abs_path (l ++ [n]) = Spec.slash_names l +:+ "/" +:+ n.
Proof.
  rewrite <- slash_names_snoc. destruct l; reflexivity.
Qed.

Lemma slash_names_facts l :
  Forall Spec.plain_name l → l ≠ [] →
  Str.starts_with_slash (Spec.slash_names l) = true
  ∧ Str.ends_with_slash (Spec.slash_names l) = false
  ∧ Str.all_slashes (Spec.slash_names l) = false
  ∧ Spec.slash_names l ≠ "".
Proof.
  intros Hl Hne. destruct l as [|n l _] using rev_ind; [done|].
  apply Forall_app in Hl as [_ Hn%Forall_inv].
  destruct (plain_name_facts n Hn) as (Hs & He & Ha & Hlen).
  rewrite slash_names_snoc. repeat split.
  - destruct l; reflexivity.
  - rewrite ends_with_slash_app.
    + rewrite ends_with_slash_app; [exact He|]. destruct n; [simpl in Hlen; lia|done].
    + done.
  - rewrite !all_slashes_app, Ha, !andb_false_r. reflexivity.
  - destruct (Spec.slash_names l); done.
Qed.



Lemma join2_abs_path l n :
  Forall Spec.plain_name l → Spec.plain_name n →
  posixpath.join2 (Spec.abs_path l) n = Spec.abs_path (l ++ [n]).
Proof.
  intros Hl Hn. rewrite abs_path_snoc. unfold posixpath.join2.
  destruct (plain_name_facts n Hn) as (-> & _).
  destruct l as [|a l]; [reflexivity|].
  destruct (slash_names_facts (a :: l) Hl ltac:(done)) as (_ & He & _ & Hne).
  cbn [Spec.abs_path]. rewrite He, bool_decide_eq_false_2 by exact Hne.
  reflexivity.
Qed.





Section Dates.

#[local] Open Scope Z_scope.

Example strptime_examples :
  datetime.strptime_Ymd "20140624" = inr (datetime.mk 2014 6 24 0 0 0 0) /\
  datetime.strptime_Ymd "20141231" = inr (datetime.mk 2014 12 31 0 0 0 0) /\
  datetime.strptime_Ymd "201412" = inr (datetime.mk 2014 1 2 0 0 0 0) /\
  datetime.strptime_Ymd "2014-06-24" = inl ValueError /\
  datetime.strptime_Ymd "20140231" = inl ValueError /\
  datetime.strptime_Ymd "201406240" = inl ValueError /\
  datetime.strptime_Ymd "00000101" = inl ValueError.
Proof. repeat split; reflexivity. Qed.

Example strftime_example :
  datetime.strftime
    "http://droughtmonitor.unl.edu/data/shapefiles_m/USDM_%Y%m%d_M.zip"
    (datetime.mk 2014 6 24 0 0 0 0)
  = "http://droughtmonitor.unl.edu/data/shapefiles_m/USDM_20140624_M.zip".
Proof. reflexivity. Qed.

Lemma digit_value_inv c n :
  datetime.digit_value c = Some n → c = datetime.digit n ∧ 0 ≤ n ≤ 9.
Proof.
  destruct c as [[] [] [] [] [] [] [] []]; intros H; vm_compute in H;
    try discriminate H; injection H as <-; split; (reflexivity || lia).
Qed.

Lemma digit_value_digit n :
  datetime.digit_value (datetime.digit n) = Some (n mod 10).
Proof.
  unfold datetime.digit.
  pose proof (Z.mod_pos_bound n 10 ltac:(lia)) as H.
  generalize dependent (n mod 10). intros k Hk.
  digit_cases k; reflexivity.
Qed.

Lemma digit_not_slash n : Str.is_slash (datetime.digit n) = false.
Proof.
  unfold datetime.digit.
  pose proof (Z.mod_pos_bound n 10 ltac:(lia)) as H.
  generalize dependent (n mod 10). intros k Hk.
  digit_cases k; reflexivity.
Qed.

Lemma has_slash_zero_padded w n :
  Str.has_slash (datetime.zero_padded w n) = false.
Proof.
  revert n. induction w as [|w IH]; intros n; [reflexivity|].
  simpl. rewrite has_slash_app, IH. simpl. rewrite digit_not_slash. reflexivity.
Qed.

Lemma length_zero_padded w n : String.length (datetime.zero_padded w n) = w.
Proof.
  revert n. induction w as [|w IH]; intros n; [reflexivity|].
  simpl. rewrite str_length_app, IH. simpl. lia.
Qed.

Lemma digit_in_any c n :
  datetime.digit_value c = Some n → datetime.digit_in 0 9 c = Some n.
Proof.
  intros H. unfold datetime.digit_in. rewrite H. simpl.
  apply digit_value_inv in H as [_ H].
  destruct (Z.leb_spec 0 n), (Z.leb_spec n 9); (reflexivity || lia).
Qed.

Lemma re_Y_digits a b c d rest na nb nc nd :
  datetime.digit_value a = Some na → datetime.digit_value b = Some nb →
  datetime.digit_value c = Some nc → datetime.digit_value d = Some nd →
  datetime.re_Y (String a (String b (String c (String d rest))))
  = Some (1000 * na + 100 * nb + 10 * nc + nd, rest).
Proof.
  intros Ha Hb Hc Hd. unfold datetime.re_Y, datetime.two.
  rewrite (digit_in_any _ _ Ha), (digit_in_any _ _ Hb). simpl.
  rewrite (digit_in_any _ _ Hc), (digit_in_any _ _ Hd). simpl.
  do 2 f_equal. lia.
Qed.

(** On two digits of a month and two digits of a day, the first match of
    the month and day groups takes two digits each: no backtracking. *)
Lemma re_md_digits (y : Z) m1 m2 d1 d2 :
  0 ≤ m1 ≤ 9 → 0 ≤ m2 ≤ 9 → 0 ≤ d1 ≤ 9 → 0 ≤ d2 ≤ 9 →
  1 ≤ 10 * m1 + m2 ≤ 12 → 1 ≤ 10 * d1 + d2 ≤ 31 →
  head (flat_map
          (λ '(m, r2), (λ '(d, r3), (y, m, d, r3)) <$> datetime.re_d r2)
          (datetime.re_m
             (String (datetime.digit m1) (String (datetime.digit m2)
                (String (datetime.digit d1) (String (datetime.digit d2) ""))))))
  = Some (y, 10 * m1 + m2, 10 * d1 + d2, "").
Proof.
  intros H1 H2 H3 H4 Hm Hd.
  digit_cases m1; digit_cases m2; try (exfalso; lia);
  digit_cases d1; digit_cases d2; try (exfalso; lia); reflexivity.
Qed.

Lemma days_in_month_le y m : datetime.days_in_month y m ≤ 31.
Proof. unfold datetime.days_in_month. repeat case_match; lia. Qed.

(** [strptime] with ['%Y%m%d'] reads an 8-digit date as the specification
    does. *)
Lemma strptime_YYYYMMDD s date :
  Spec.parse_YYYYMMDD s = Some date → datetime.strptime_Ymd s = inr date.
Proof.
  unfold Spec.parse_YYYYMMDD.
  destruct s as [|a [|b [|c [|d [|e [|f [|g [|h [|? ?]]]]]]]]]; try discriminate.
  destruct (datetime.digit_value a) as [na|] eqn:Ha; [|discriminate].
  destruct (datetime.digit_value b) as [nb|] eqn:Hb; [|discriminate].
  destruct (datetime.digit_value c) as [nc|] eqn:Hc; [|discriminate].
  destruct (datetime.digit_value d) as [nd|] eqn:Hd; [|discriminate].
  destruct (datetime.digit_value e) as [ne|] eqn:He; [|discriminate].
  destruct (datetime.digit_value f) as [nf|] eqn:Hf; [|discriminate].
  destruct (datetime.digit_value g) as [ng|] eqn:Hg; [|discriminate].
  destruct (datetime.digit_value h) as [nh|] eqn:Hh; [|discriminate].
  cbn [mbind option_bind].
  destruct (datetime.valid_date _ _ _) eqn:Hv; [|discriminate].
  intros [= <-].
  apply digit_value_inv in He as [-> He], Hf as [-> Hf],
    Hg as [-> Hg], Hh as [-> Hh].
  unfold datetime.strptime_Ymd, datetime.re_Ymd.
  rewrite (re_Y_digits _ _ _ _ _ _ _ _ _ Ha Hb Hc Hd). cbn [mbind option_bind].
  assert (1 ≤ 10 * ne + nf ≤ 12 ∧ 1 ≤ 10 * ng + nh ≤ 31) as [Hm Hday].
  { pose proof (days_in_month_le
                  (1000 * na + 100 * nb + 10 * nc + nd) (10 * ne + nf)).
    unfold datetime.valid_date in Hv.
    repeat (apply andb_prop in Hv as [Hv ?]).
    repeat match goal with
           | H : (_ <=? _) = true |- _ => apply Z.leb_le in H
           end.
    lia. }
  rewrite re_md_digits by assumption.
  rewrite Hv. reflexivity.
Qed.

(** What [%Y%m%d] prints: the year unpadded, month and day on two
    digits. *)
Lemma strftime_Ymd_form date :
  datetime.strftime "%Y%m%d" date
  = datetime.decimal (datetime.year date)
    +:+ datetime.zero_padded 2 (datetime.month date)
    +:+ datetime.zero_padded 2 (datetime.day date).
Proof.
  destruct date as [y m d hh mm ss us].
  lazy -[Z.div Z.modulo datetime.decimal String.append datetime.zero_padded].
  rewrite str_app_empty_r. reflexivity.
Qed.

(** The URL the format string produces: the archive endpoint, at what
    [%Y%m%d] prints for the date. *)
Lemma shapefile_url_form date :
  shapefile_url date
  = "http://droughtmonitor.unl.edu/data/shapefiles_m" +:+ "/"
    +:+ "USDM_" +:+ datetime.strftime "%Y%m%d" date +:+ "_M.zip".
Proof.
  rewrite strftime_Ymd_form, !str_app_assoc.
  destruct date as [y m d hh mm ss us].
  lazy -[Z.div Z.modulo datetime.decimal]. reflexivity.
Qed.

Lemma has_slash_decimal_rec fuel n :
  Str.has_slash (datetime.decimal_rec fuel n) = false.
Proof.
  revert n. induction fuel as [|fuel IH]; intros n; [reflexivity|].
  cbn [datetime.decimal_rec]. destruct (n <? 10).
  - simpl. rewrite digit_not_slash. reflexivity.
  - rewrite has_slash_app, IH. simpl. rewrite digit_not_slash. reflexivity.
Qed.

Lemma has_slash_strftime_Ymd date :
  Str.has_slash (datetime.strftime "%Y%m%d" date) = false.
Proof.
  rewrite strftime_Ymd_form. unfold datetime.decimal.
  rewrite !has_slash_app, has_slash_decimal_rec, !has_slash_zero_padded.
  reflexivity.
Qed.

(** A year of four digits is printed as [zero_padded] prints it. *)
Lemma decimal_four_digits n :
  1000 ≤ n ≤ 9999 → datetime.decimal n = datetime.zero_padded 4 n.
Proof.
  intros Hn. unfold datetime.decimal.
  assert (∃ k, Z.to_nat n = (3 + k)%nat) as [k ->]
    by (exists (Z.to_nat n - 3)%nat; lia).
  cbn [datetime.decimal_rec datetime.zero_padded Nat.add].
  destruct (Z.ltb_spec n 10); [lia|].
  destruct (Z.ltb_spec (n / 10) 10); [Z.div_mod_to_equations; lia|].
  destruct (Z.ltb_spec (n / 10 / 10) 10); [Z.div_mod_to_equations; lia|].
  destruct (Z.ltb_spec (n / 10 / 10 / 10) 10);
    [reflexivity | Z.div_mod_to_equations; lia].
Qed.

Lemma strftime_Ymd_YYYYMMDD date :
  1000 ≤ datetime.year date ≤ 9999 →
  datetime.strftime "%Y%m%d" date = Spec.YYYYMMDD date.
Proof.
  intros Hy. rewrite strftime_Ymd_form, decimal_four_digits by done.
  reflexivity.
Qed.

(** For a year of four digits the URL is the archive endpoint at the
    8-digit form of the date. *)
Lemma shapefile_url_archive date :
  1000 ≤ datetime.year date ≤ 9999 →
  shapefile_url date = Spec.archive_url date.
Proof.
  intros Hy. rewrite shapefile_url_form, strftime_Ymd_YYYYMMDD by done.
  reflexivity.
Qed.

Lemma has_slash_archive_name date :
  Str.has_slash (Spec.archive_name date) = false.
Proof.
  unfold Spec.archive_name, Spec.YYYYMMDD.
  rewrite !has_slash_app, !has_slash_zero_padded. reflexivity.
Qed.

Lemma basename_shapefile_url date :
  posixpath.basename (shapefile_url date)
  = "USDM_" +:+ datetime.strftime "%Y%m%d" date +:+ "_M.zip".
Proof.
  rewrite shapefile_url_form. apply basename_app.
  rewrite !has_slash_app, has_slash_strftime_Ymd. reflexivity.
Qed.

Lemma basename_shapefile_url_archive date :
  1000 ≤ datetime.year date ≤ 9999 →
  posixpath.basename (shapefile_url date) = Spec.archive_name date.
Proof.
  intros Hy. rewrite basename_shapefile_url, strftime_Ymd_YYYYMMDD by done.
  reflexivity.
Qed.

Lemma length_YYYYMMDD date : String.length (Spec.YYYYMMDD date) = 8%nat.
Proof.
  unfold Spec.YYYYMMDD. rewrite !str_length_app, !length_zero_padded.
  reflexivity.
Qed.

(** The 8-digit form of a date of the calendar reads back as that date. *)
Lemma YYYYMMDD_parses y m d hh mm ss us :
  datetime.valid_date y m d = true →
  Spec.parse_YYYYMMDD (Spec.YYYYMMDD (datetime.mk y m d hh mm ss us))
  = Some (datetime.mk y m d 0 0 0 0).
Proof.
  intros Hv.
  unfold Spec.YYYYMMDD. lazy -[Z.div Z.modulo datetime.digit datetime.digit_value datetime.valid_date Z.add Z.mul] .
  rewrite !digit_value_digit. cbn [mbind option_bind].
  assert (0 ≤ y ≤ 9999 ∧ 0 ≤ m ≤ 12 ∧ 0 ≤ d ≤ 31) as (Hy & Hm & Hd).
  { pose proof (days_in_month_le y m).
    unfold datetime.valid_date in Hv.
    repeat (apply andb_prop in Hv as [Hv ?]).
    repeat match goal with
           | H : (_ <=? _) = true |- _ => apply Z.leb_le in H
           end.
    lia. }
  replace (1000 * _ + _ + _ + _) with y by (Z.div_mod_to_equations; lia).
  replace (10 * _ + _) with m by (Z.div_mod_to_equations; lia).
  replace (10 * _ + _) with d by (Z.div_mod_to_equations; lia).
  rewrite Hv. reflexivity.
Qed.

End Dates.

(** ** The filesystem under a resolved path *)






(** A path strictly under a resolved root is a proper descendant of it. *)
Lemma strictly_under_abs_path l p :
  Forall Spec.plain_name l →
  Spec.strictly_under (Spec.abs_path l) p →
  ∃ names, names ≠ [] ∧ p = Spec.abs_path (l ++ names).
Proof.
  intros Hl (names & Hne & Hnames & ->).
  exists names. split; [done|]. clear Hne. unfold posixpath.join.
  revert l Hl. induction Hnames as [|n names Hn _ IH]; intros l Hl; simpl.
  - rewrite app_nil_r. reflexivity.
  - rewrite join2_abs_path by done.
    rewrite IH by (apply Forall_app; split; [done | by constructor]).
    rewrite <- app_assoc. reflexivity.
Qed.

Lemma archive_name_plain date : Spec.plain_name (Spec.archive_name date).
Proof.
  unfold Spec.plain_name.
  repeat split; try done. apply has_slash_archive_name.
Qed.

Lemma zip_plain : Spec.plain_name "zip".
Proof. unfold Spec.plain_name. repeat split; done. Qed.

(** The basename of the URL of a date is the name of one entry. *)
Lemma shapefile_basename_plain date :
  Spec.plain_name (posixpath.basename (shapefile_url date)).
Proof.
  rewrite basename_shapefile_url. unfold Spec.plain_name.
  repeat split; try done.
  rewrite !has_slash_app, has_slash_strftime_Ymd. reflexivity.
Qed.


(** ** The first week of a document *)

Lemma find_first_week xml week :
  Spec.first_week xml week → ElementTree.find "week" xml = Some week.
Proof.
  intros (before & after & Hch & Htag & Hbefore).
  unfold ElementTree.find. rewrite Hch. clear Hch.
  induction Hbefore as [|c before Hc _ IH]; simpl.
  - rewrite filter_cons_True by done. reflexivity.
  - rewrite filter_cons_False by done. exact IH.
Qed.

(** ** The methods of the mapper *)

Section Properties.

Variable realpath : string → string.
Variable remote : list string → string → option Response.
Variable fromstring : string → option Element.

Lemma fetch_latest_date_log s :
  requests_log (snd (fetch_latest_date remote fromstring s))
  = requests_log s ++ [metadata_url].
Proof.
  unfold fetch_latest_date, requests_get, ElementTree_fromstring. st_unfold.
  destruct (remote _ _) as [r|]; [|reflexivity].
  destruct (fromstring _) as [xml|]; [|reflexivity].
  destruct (ElementTree.find _ _) as [week|]; [|reflexivity].
  destruct (ElementTree.get _ _) as [date|]; [|reflexivity].
  destruct (datetime.strptime_Ymd _); reflexivity.
Qed.

Lemma fetch_latest_date_cache s :
  cache (self (snd (fetch_latest_date remote fromstring s))) = cache (self s).
Proof.
  unfold fetch_latest_date, requests_get, ElementTree_fromstring. st_unfold.
  destruct (remote _ _) as [r|]; [|reflexivity].
  destruct (fromstring _) as [xml|]; [|reflexivity].
  destruct (ElementTree.find _ _) as [week|]; [|reflexivity].
  destruct (ElementTree.get _ _) as [date|]; [|reflexivity].
  destruct (datetime.strptime_Ymd _); reflexivity.
Qed.

Lemma fetch_latest_date_returns s d s' :
  fetch_latest_date remote fromstring s = (inr d, s') →
  s' = set_latest_date d (log_request metadata_url s).
Proof.
  unfold fetch_latest_date, requests_get, ElementTree_fromstring. st_unfold.
  destruct (remote _ _) as [r|]; [|discriminate].
  destruct (fromstring _) as [xml|]; [|discriminate].
  destruct (ElementTree.find _ _) as [week|]; [|discriminate].
  destruct (ElementTree.get _ _) as [date|]; [|discriminate].
  destruct (datetime.strptime_Ymd _); [discriminate|].
  intros [= <- <-]. reflexivity.
Qed.

Lemma fetch_latest_date_valid s r xml week date d :
  remote (requests_log s) metadata_url = Some r →
  fromstring (requests.text r) = Some xml →
  Spec.first_week xml week →
  ElementTree.attrib week !! "date" = Some date →
  Spec.parse_YYYYMMDD date = Some d →
  fetch_latest_date remote fromstring s
  = (inr d, set_latest_date d (log_request metadata_url s)).
Proof.
  intros Hr Hxml Hweek Hdate Hd.
  unfold fetch_latest_date, requests_get, ElementTree_fromstring. st_unfold.
  rewrite Hr, Hxml, (find_first_week _ _ Hweek).
  unfold ElementTree.get. rewrite Hdate, (strptime_YYYYMMDD _ _ Hd).
  reflexivity.
Qed.

(** The ways [get_latest_date] raises when it fetches: the request itself
    fails, the body is not well-formed, or the document has no [week]
    child.  The status of the response plays no part. *)
Lemma fetch_latest_date_raises s :
  (remote (requests_log s) metadata_url = None →
   fst (fetch_latest_date remote fromstring s) = inl ConnectionError)
  ∧ (∀ r, remote (requests_log s) metadata_url = Some r →
          fromstring (requests.text r) = None →
          fst (fetch_latest_date remote fromstring s) = inl ParseError)
  ∧ (∀ r xml, remote (requests_log s) metadata_url = Some r →
              fromstring (requests.text r) = Some xml →
              ElementTree.find "week" xml = None →
              fst (fetch_latest_date remote fromstring s)
              = inl AttributeError).
Proof.
  unfold fetch_latest_date, requests_get, ElementTree_fromstring. st_unfold.
  repeat split.
  - intros ->. reflexivity.
  - intros r -> ->. reflexivity.
  - intros r xml -> -> ->. reflexivity.
Qed.

(** What [get_shapefile] does once it has decided to fetch, on a response
    that [raise_for_status] lets pass. *)
Lemma get_shapefile_unfold date ignore_cache s :
  get_shapefile remote (Some date) ignore_cache s
  = let path := shapefile_path (cache (self s)) date in
    if os.exists_ (fs s) path && negb ignore_cache then (inr path, s)
    else
      let s1 := log_request (shapefile_url date) s in
      match remote (requests_log s) (shapefile_url date) with
      | None => (inl ConnectionError, s1)
      | Some r =>
          match requests.raise_for_status r with
          | inl e => (inl e, s1)
          | inr _ =>
              let '(made, fs1) :=
                if os.exists_ (fs s) (posixpath.dirname path)
                then (inr tt, fs s)
                else os.makedirs (posixpath.dirname path) (fs s) in
              match made with
              | inl e => (inl e, mkState (self s) fs1 (requests_log s1))
              | inr _ =>
                  let '(written, fs2) :=
                    os.write_binary path (requests.content r) fs1 in
                  (match written with inl e => inl e | inr _ => inr path end,
                   mkState (self s) fs2 (requests_log s1))
              end
          end
      end.
Proof.
  unfold get_shapefile, requests_get. st_unfold.
  destruct (_ && _); [reflexivity|].
  destruct (remote _ _) as [r|]; [|reflexivity].
  destruct (requests.raise_for_status r); [reflexivity|]. st_unfold.
  destruct (os.exists_ _ _); cbn [negb].
  - destruct (os.write_binary _ _ _) as [[e|[]] fs2]; reflexivity.
  - destruct (os.makedirs _ _) as [[e|[]] fs1]; [reflexivity|]. st_unfold.
    destruct (os.write_binary _ _ _) as [[e|[]] fs2]; reflexivity.
Qed.

Lemma get_shapefile_self date ignore_cache s :
  self (snd (get_shapefile remote date ignore_cache s)) = self s.
Proof.
  destruct date as [date|]; [|reflexivity].
  rewrite get_shapefile_unfold. cbv zeta.
  destruct (_ && _); [reflexivity|].
  destruct (remote _ _) as [r|]; [|reflexivity].
  destruct (requests.raise_for_status r); [reflexivity|].
  destruct (if os.exists_ _ _ then _ else _) as [[e|[]] fs1]; [reflexivity|].
  destruct (os.write_binary _ _ _) as [[e|[]] fs2]; reflexivity.
Qed.

Lemma get_shapefile_log date ignore_cache s :
  requests_log (snd (get_shapefile remote (Some date) ignore_cache s))
  = if os.exists_ (fs s) (shapefile_path (cache (self s)) date)
       && negb ignore_cache
    then requests_log s
    else requests_log s ++ [shapefile_url date].
Proof.
  rewrite get_shapefile_unfold. cbv zeta.
  destruct (_ && _); [reflexivity|].
  destruct (remote _ _) as [r|]; [|reflexivity].
  destruct (requests.raise_for_status r); [reflexivity|].
  destruct (if os.exists_ _ _ then _ else _) as [[e|[]] fs1]; [reflexivity|].
  destruct (os.write_binary _ _ _) as [[e|[]] fs2]; reflexivity.
Qed.

Lemma get_shapefile_returns date ignore_cache s p s' :
  get_shapefile remote date ignore_cache s = (inr p, s') →
  ∃ d, date = Some d ∧ p = shapefile_path (cache (self s)) d.
Proof.
  destruct date as [date|]; [|discriminate].
  rewrite get_shapefile_unfold. cbv zeta. intros H. exists date. split; [done|].
  destruct (_ && _); [congruence|].
  destruct (remote _ _) as [r|]; [|discriminate].
  destruct (requests.raise_for_status r); [discriminate|].
  destruct (if os.exists_ _ _ then _ else _) as [[e|[]] fs1]; [discriminate|].
  destruct (os.write_binary _ _ _) as [[e|[]] fs2]; [discriminate|congruence].
Qed.


(** *** Claims about [render] and [get_latest_date] *)

(** C1, which the code does not meet: [render] called with no date does not
    resolve the latest date.  It passes [None] to [get_shapefile], which
    raises [AttributeError] at [date.strftime] before any request and before
    any write: the state is left as it was, and no output file exists
    afterwards that did not before.  With a date, [render] is
    [get_shapefile] followed by a [raster] that does nothing. *)
Theorem render_without_date outfile s :
  render remote None outfile s = (inl AttributeError, s)
  ∧ ∀ date,
      render remote (Some date) outfile s
      = let '(r, s') := get_shapefile remote (Some date) false s in
        (match r with inl e => inl e | inr _ => inr tt end, s').
Proof.
  split; [reflexivity|]. intros date.
  unfold render, raster, get_us. st_unfold.
  destruct (get_shapefile _ _ _ _) as [[e|p] s']; reflexivity.
Qed.

(** C2: for every date with no cache file and every response with an error
    status (4xx or 5xx), [get_shapefile] raises [HTTPError], a remote fetch
    error, after its one request; the filesystem is the one it started
    from, so no cache file exists for the date afterwards. *)
Theorem get_shapefile_http_error date ignore_cache s r :
  os.exists_ (fs s) (shapefile_path (cache (self s)) date) = false →
  remote (requests_log s) (shapefile_url date) = Some r →
  Spec.error_status (requests.status_code r) →
  ∃ e s',
    get_shapefile remote (Some date) ignore_cache s = (inl e, s')
    ∧ e = HTTPError (requests.status_code r)
    ∧ is_RemoteFetchError e = true
    ∧ fs s' = fs s
    ∧ self s' = self s
    ∧ os.exists_ (fs s') (shapefile_path (cache (self s')) date) = false.
Proof.
  intros Hmiss Hr [Hlo Hhi].
  exists (HTTPError (requests.status_code r)),
    (log_request (shapefile_url date) s).
  rewrite get_shapefile_unfold. cbv zeta.
  rewrite Hmiss, Hr. cbn [andb].
  unfold requests.raise_for_status.
  destruct (Z.leb_spec 400 (requests.status_code r)); [|lia].
  destruct (Z.ltb_spec (requests.status_code r) 600); [|lia].
  repeat split. exact Hmiss.
Qed.

(** C3, which the code does not meet: [get_latest_date] never looks at the
    status of the response.  On a response with status 500 whose body is a
    well-formed metadata document, it returns the date of the first week
    and stores it, where [get_shapefile] on the same status raises. *)
Theorem get_latest_date_ignores_status root disk log :
  get_latest_date (Sample.remote 500) Sample.fromstring false
    (mkState (mkMapper root None) disk log)
  = (inr Sample.date_20140624,
     mkState (mkMapper root (Some Sample.date_20140624)) disk
       (log ++ [metadata_url])).
Proof. reflexivity. Qed.

(** C4: when the call fetches (nothing is stored yet, or the cache is
    ignored) and the response holds a well-formed document whose first week
    element carries an 8-digit date, [get_latest_date] returns that date
    and stores it on the instance. *)
Theorem get_latest_date_first_week ignore_cache s r xml week date d :
  _latest_date (self s) = None ∨ ignore_cache = true →
  remote (requests_log s) metadata_url = Some r →
  fromstring (requests.text r) = Some xml →
  Spec.first_week xml week →
  ElementTree.attrib week !! "date" = Some date →
  Spec.parse_YYYYMMDD date = Some d →
  get_latest_date remote fromstring ignore_cache s
  = (inr d, set_latest_date d (log_request metadata_url s)).
Proof.
  intros Hfetch Hr Hxml Hweek Hdate Hd.
  pose proof (fetch_latest_date_valid s r xml week date d
                Hr Hxml Hweek Hdate Hd) as H.
  unfold get_latest_date. st_unfold.
  destruct (_latest_date (self s)) as [memo|]; [|exact H].
  destruct Hfetch as [?| ->]; [discriminate|exact H].
Qed.

(** C5: after a call of [get_latest_date] without [ignore_cache] has
    returned a date, a second such call returns the same date and leaves
    the state, and so the log of requests, as it is; and every call with
    [ignore_cache] makes one new request for the metadata document, whatever
    is stored. *)
Theorem get_latest_date_memo :
  (∀ s d s1,
      get_latest_date remote fromstring false s = (inr d, s1) →
      get_latest_date remote fromstring false s1 = (inr d, s1))
  ∧ (∀ s,
      requests_log (snd (get_latest_date remote fromstring true s))
      = requests_log s ++ [metadata_url]).
Proof.
  split.
  - intros s d s1. unfold get_latest_date at 1. st_unfold.
    destruct (_latest_date (self s)) as [memo|] eqn:Hmemo.
    + intros [= <- <-]. unfold get_latest_date. st_unfold.
      rewrite Hmemo. reflexivity.
    + intros ->%fetch_latest_date_returns. reflexivity.
  - intros s. unfold get_latest_date. st_unfold.
    destruct (_latest_date (self s)); apply fetch_latest_date_log.
Qed.

(** *** Claims about [get_shapefile] *)

(** C6: when something exists at the cache path of the date and
    [ignore_cache] is false, [get_shapefile] returns that path and leaves
    the whole state as it is: no request, no write, whatever the file
    holds. *)
Theorem get_shapefile_cache_hit date s :
  os.exists_ (fs s) (shapefile_path (cache (self s)) date) = true →
  get_shapefile remote (Some date) false s
  = (inr (shapefile_path (cache (self s)) date), s).
Proof.
  intros Hhit. rewrite get_shapefile_unfold. cbv zeta.
  rewrite Hhit. reflexivity.
Qed.


(** C8, amended: for every date whose year has four digits, the URL
    [get_shapefile] builds, and requests when it requests one, is the
    archive endpoint at the 8-digit form of the date, and the path it returns
    is the [zip] entry of the cache root joined with the basename of that
    URL, [USDM_<YYYYMMDD>_M.zip].  The 8-digit form has eight characters
    and, for a date of the calendar, reads back as the date. *)
Theorem get_shapefile_url_and_path date ignore_cache s :
  (1000 ≤ datetime.year date ≤ 9999)%Z →
  let path :=
    posixpath.join (cache (self s)) ["zip"; Spec.archive_name date] in
  shapefile_url date = Spec.archive_url date
  ∧ posixpath.basename (shapefile_url date) = Spec.archive_name date
  ∧ requests_log (snd (get_shapefile remote (Some date) ignore_cache s))
    = (if os.exists_ (fs s) path && negb ignore_cache
       then requests_log s
       else requests_log s ++ [Spec.archive_url date])
  ∧ (∀ p, fst (get_shapefile remote (Some date) ignore_cache s) = inr p →
          p = path)
  ∧ String.length (Spec.YYYYMMDD date) = 8%nat
  ∧ (datetime.valid_date (datetime.year date) (datetime.month date)
       (datetime.day date) = true →
     Spec.parse_YYYYMMDD (Spec.YYYYMMDD date)
     = Some (datetime.mk (datetime.year date) (datetime.month date)
               (datetime.day date) 0 0 0 0)).
Proof.
  intros Hyear. cbv zeta.
  rewrite <- (shapefile_url_archive date Hyear).
  rewrite <- (basename_shapefile_url_archive date Hyear).
  fold (shapefile_path (cache (self s)) date).
  split; [reflexivity|]. split; [reflexivity|].
  split; [apply get_shapefile_log|]. split.
  - intros p Hp.
    destruct (get_shapefile remote (Some date) ignore_cache s)
      as [res s'] eqn:Hrun.
    simpl in Hp. subst res.
    apply get_shapefile_returns in Hrun as (d & [= <-] & ->). reflexivity.
  - split; [apply length_YYYYMMDD|].
    destruct date. apply YYYYMMDD_parses.
Qed.

(** C9: whatever the date, whatever [ignore_cache], and whether it returns
    or raises, [get_shapefile] leaves the stored latest date and the cache
    root of the instance as they were. *)
Theorem get_shapefile_frame date ignore_cache s :
  _latest_date (self (snd (get_shapefile remote date ignore_cache s)))
  = _latest_date (self s)
  ∧ cache (self (snd (get_shapefile remote date ignore_cache s)))
    = cache (self s).
Proof. rewrite get_shapefile_self. split; reflexivity. Qed.

(** C10: the cache root is the real path of the argument of the
    constructor, [.cache] by default; no method changes it; and every path
    [get_shapefile] returns lies strictly under it. *)
Theorem cache_root_fixed :
  (∀ root, cache (__init__ realpath root) = realpath root)
  ∧ default_cache = ".cache"
  ∧ (∀ ignore_cache s,
        cache (self (snd (get_latest_date remote fromstring ignore_cache s)))
        = cache (self s))
  ∧ (∀ date ignore_cache s,
        cache (self (snd (get_shapefile remote date ignore_cache s)))
        = cache (self s))
  ∧ (∀ s, cache (self (snd (get_us s))) = cache (self s))
  ∧ (∀ shapefile s,
        cache (self (snd (project_shapefile shapefile s))) = cache (self s))
  ∧ (∀ shapefile outfile s,
        cache (self (snd (raster shapefile outfile s))) = cache (self s))
  ∧ (∀ date outfile s,
        cache (self (snd (render remote date outfile s))) = cache (self s))
  ∧ (∀ date ignore_cache s p s',
        get_shapefile remote date ignore_cache s = (inr p, s') →
        Spec.strictly_under (cache (self s)) p).
Proof.
  repeat split; try reflexivity.
  - intros ignore_cache s. unfold get_latest_date. st_unfold.
    destruct (_latest_date (self s)); [destruct ignore_cache|];
      (reflexivity || apply fetch_latest_date_cache).
  - intros. rewrite get_shapefile_self. reflexivity.
  - intros date outfile s. unfold render, raster, get_us. st_unfold.
    pose proof (get_shapefile_self date false s) as H.
    destruct (get_shapefile _ _ _ _) as [[e|p] s']; simpl in *; congruence.
  - intros date ignore_cache s p s' (d & -> & ->)%get_shapefile_returns.
    exists ["zip"; posixpath.basename (shapefile_url d)].
    split; [done|]. split; [|reflexivity].
    repeat constructor; (apply zip_plain || apply shapefile_basename_plain).
Qed.

End Properties.

(** ** The claims on the sample world *)

Lemma get_shapefile_http_error_witness :
  os.exists_ (fs Sample.fresh)
    (shapefile_path (cache (self Sample.fresh)) Sample.date_20140624) = false
  ∧ Spec.error_status 404
  ∧ ∃ e s',
      get_shapefile (Sample.remote 404) (Some Sample.date_20140624) false
        Sample.fresh = (inl e, s')
      ∧ e = HTTPError 404
      ∧ is_RemoteFetchError e = true
      ∧ fs s' = fs Sample.fresh
      ∧ self s' = self Sample.fresh
      ∧ os.exists_ (fs s')
          (shapefile_path (cache (self s')) Sample.date_20140624) = false.
Proof.
  split; [vm_compute; reflexivity|].
  split; [unfold Spec.error_status; lia|].
  apply (get_shapefile_http_error (Sample.remote 404) Sample.date_20140624
           false Sample.fresh (requests.mkResponse 404 Sample.archive ""));
    [vm_compute; reflexivity | vm_compute; reflexivity
    | unfold Spec.error_status; simpl; lia].
Defined.

Lemma get_latest_date_first_week_witness :
  Spec.parse_YYYYMMDD "20140624" = Some Sample.date_20140624
  ∧ get_latest_date (Sample.remote 200) Sample.fromstring false Sample.fresh
    = (inr Sample.date_20140624,
       set_latest_date Sample.date_20140624
         (log_request metadata_url Sample.fresh)).
Proof.
  split; [vm_compute; reflexivity|].
  apply (get_latest_date_first_week (Sample.remote 200) Sample.fromstring
           false Sample.fresh
           (requests.mkResponse 200 [] Sample.metadata_text)
           Sample.metadata_xml
           (ElementTree.Elem "week" {["date" := "20140624"]} [])
           "20140624" Sample.date_20140624).
  - left. reflexivity.
  - vm_compute; reflexivity.
  - vm_compute; reflexivity.
  - exists [], [ElementTree.Elem "week" {["date" := "20140617"]} []].
    repeat split. constructor.
  - vm_compute; reflexivity.
  - vm_compute; reflexivity.
Defined.

Lemma get_latest_date_memo_witness :
  get_latest_date (Sample.remote 200) Sample.fromstring false
    (set_latest_date Sample.date_20140624
       (log_request metadata_url Sample.fresh))
  = (inr Sample.date_20140624,
     set_latest_date Sample.date_20140624
       (log_request metadata_url Sample.fresh)).
Proof.
  apply (proj1 (get_latest_date_memo (Sample.remote 200) Sample.fromstring)
           Sample.fresh).
  vm_compute; reflexivity.
Defined.

Lemma get_shapefile_cache_hit_witness :
  os.exists_ (fs Sample.cached)
    (shapefile_path (cache (self Sample.cached)) Sample.date_20140624) = true
  ∧ get_shapefile (Sample.remote 404) (Some Sample.date_20140624) false
      Sample.cached
    = (inr (shapefile_path (cache (self Sample.cached))
              Sample.date_20140624),
       Sample.cached).
Proof.
  split; [vm_compute; reflexivity|].
  apply (get_shapefile_cache_hit (Sample.remote 404) Sample.date_20140624
           Sample.cached).
  vm_compute; reflexivity.
Defined.



(** C8 as stated fails for a year below 1000: for the second of January
    of the year 999 the URL requested ends in [USDM_9990102_M.zip], seven
    digits and not the 8-digit form [09990102], and the path returned has
    that name. *)
Lemma get_shapefile_year_999 :
  get_shapefile (Sample.remote 200) (Some (datetime.mk 999 1 2 0 0 0 0))
    false Sample.fresh
  = (inr "/home/user/.cache/zip/USDM_9990102_M.zip",
     mkState (self Sample.fresh)
       {["/home" := Dir; "/home/user" := Dir; "/home/user/.cache" := Dir;
         "/home/user/.cache/zip" := Dir;
         "/home/user/.cache/zip/USDM_9990102_M.zip" := File Sample.archive]}
       ["http://droughtmonitor.unl.edu/data/shapefiles_m/USDM_9990102_M.zip"])
  ∧ Spec.YYYYMMDD (datetime.mk 999 1 2 0 0 0 0) = "09990102"
  ∧ Spec.archive_url (datetime.mk 999 1 2 0 0 0 0)
    = "http://droughtmonitor.unl.edu/data/shapefiles_m/USDM_09990102_M.zip"
  ∧ shapefile_url (datetime.mk 999 1 2 0 0 0 0)
    ≠ Spec.archive_url (datetime.mk 999 1 2 0 0 0 0).
Proof. vm_compute. repeat split. discriminate. Qed.

Lemma get_shapefile_url_and_path_witness :
  (1000 ≤ datetime.year Sample.date_20140624 ≤ 9999)%Z
  ∧ shapefile_url Sample.date_20140624
    = Spec.archive_url Sample.date_20140624
  ∧ Spec.parse_YYYYMMDD (Spec.YYYYMMDD Sample.date_20140624)
    = Some Sample.date_20140624
  ∧ requests_log
      (snd (get_shapefile (Sample.remote 200) (Some Sample.date_20140624)
              false Sample.fresh))
    = [Spec.archive_url Sample.date_20140624].
Proof.
  assert (1000 ≤ datetime.year Sample.date_20140624 ≤ 9999)%Z as Hyear
    by (simpl; lia).
  split; [exact Hyear|].
  destruct (get_shapefile_url_and_path (Sample.remote 200)
              Sample.date_20140624 false Sample.fresh Hyear)
    as (Hurl & _ & Hlog & _ & _ & Hparse).
  split; [exact Hurl|].
  split; [apply Hparse; vm_compute; reflexivity|].
  rewrite Hlog. vm_compute. reflexivity.
Defined.

Lemma cache_root_fixed_witness :
  Spec.strictly_under (cache (self Sample.fresh)) Sample.archive_path.
Proof.
  destruct (cache_root_fixed Sample.realpath (Sample.remote 200)
              Sample.fromstring)
    as (_ & _ & _ & _ & _ & _ & _ & _ & Hunder).
  apply (Hunder (Some Sample.date_20140624) false Sample.fresh
           Sample.archive_path
           (snd (get_shapefile (Sample.remote 200)
                   (Some Sample.date_20140624) false Sample.fresh))).
  vm_compute; reflexivity.
Defined.

(** The scenario of the specification, end to end: the latest date is read
    from the metadata document, its archive is requested at the archive
    endpoint and lands in the [zip] directory of the cache. *)
Example end_to_end :
  ∃ s1 s2,
    get_latest_date (Sample.remote 200) Sample.fromstring false Sample.fresh
    = (inr Sample.date_20140624, s1)
    ∧ get_shapefile (Sample.remote 200) (Some Sample.date_20140624) false s1
      = (inr Sample.archive_path, s2)
    ∧ fs s2 !! Sample.archive_path = Some (File Sample.archive)
    ∧ requests_log s2
      = [metadata_url;
         "http://droughtmonitor.unl.edu/data/shapefiles_m/USDM_20140624_M.zip"].
Proof.
  eexists _, _. split; [vm_compute; reflexivity|].
  split; [vm_compute; reflexivity|].
  split; vm_compute; reflexivity.
Qed.

(** * Further properties *)

(** ** What the filesystem operations leave alone *)


Lemma check_parent_state name fs : snd (os.check_parent name fs) = fs.
Proof.
  unfold os.check_parent.
  destruct (bool_decide _); [destruct (bool_decide _); reflexivity|].
  st_unfold. destruct (os.stat _ _) as [[?|]|]; reflexivity.
Qed.

Lemma write_binary_returns p data fs fs' :
  os.write_binary p data fs = (inr tt, fs') →
  fs' = <[p := File data]> fs ∧ os.stat fs' p = Some (File data).
Proof.
  unfold os.write_binary. st_unfold.
  destruct (os.stat fs p) as [[old|]|] eqn:Hstat.
  - intros [= <-]. split; [reflexivity|].
    unfold os.stat in *. destruct (_ && _); [discriminate|].
    apply lookup_insert_eq.
  - discriminate.
  - pose proof (check_parent_state p fs) as Hsame.
    destruct (os.check_parent p fs) as [[e|[]] fs1]; [discriminate|].
    simpl in Hsame. subst fs1.
    intros [= <-]. split; [reflexivity|].
    unfold os.stat in *. destruct (_ && _); [discriminate|].
    apply lookup_insert_eq.
Qed.






Lemma str_app_inv_head s t u : s +:+ t = s +:+ u → t = u.
Proof.
  induction s as [|c s IH]; [done|].
  rewrite !str_app_cons. intros [= H]. exact (IH H).
Qed.

Lemma str_app_inv_length s s' t t' :
  String.length s = String.length s' → s +:+ t = s' +:+ t' → s = s' ∧ t = t'.
Proof.
  revert s'. induction s as [|c s IH]; intros [|c' s'] Hlen; try discriminate.
  - done.
  - rewrite !str_app_cons. intros [= -> H].
    destruct (IH s') as [-> ->]; [by injection Hlen | exact H | done].
Qed.

Lemma join2_relative X n :
  Str.starts_with_slash n = false →
  posixpath.join2 X n
  = (if bool_decide (X = "") || Str.ends_with_slash X then X else X +:+ "/")
    +:+ n.
Proof.
  intros Hn. unfold posixpath.join2. rewrite Hn.
  destruct (_ || _); [reflexivity|]. rewrite str_app_assoc. reflexivity.
Qed.

Lemma str_app_inv_tail s s' t : s +:+ t = s' +:+ t → s = s'.
Proof.
  intros H. apply (str_app_inv_length s s' t t); [|exact H].
  apply (f_equal String.length) in H. rewrite !str_length_app in H. lia.
Qed.

Lemma YYYYMMDD_same_day d1 d2 :
  same_day d1 d2 → Spec.YYYYMMDD d1 = Spec.YYYYMMDD d2.
Proof. intros (Hy & Hm & Hd). unfold Spec.YYYYMMDD. by rewrite Hy, Hm, Hd. Qed.

Lemma YYYYMMDD_inj d1 d2 :
  calendar_date d1 → calendar_date d2 →
  Spec.YYYYMMDD d1 = Spec.YYYYMMDD d2 → same_day d1 d2.
Proof.
  intros H1 H2 Heq.
  destruct d1 as [y1 m1 dd1 ? ? ? ?], d2 as [y2 m2 dd2 ? ? ? ?].
  unfold calendar_date in *. simpl in H1, H2.
  pose proof (YYYYMMDD_parses y1 m1 dd1 hour minute second microsecond H1) as P1.
  pose proof (YYYYMMDD_parses y2 m2 dd2 hour0 minute0 second0 microsecond0 H2) as P2.
  rewrite Heq, P2 in P1. injection P1 as -> -> ->. done.
Qed.

Section Printing.
#[local] Open Scope Z_scope.

(** Below [10 ^ w], a number is known by its [w] digits. *)
Lemma zero_padded_inj w :
  ∀ n m, 0 ≤ n < 10 ^ Z.of_nat w → 0 ≤ m < 10 ^ Z.of_nat w →
         datetime.zero_padded w n = datetime.zero_padded w m → n = m.
Proof.
  induction w as [|w IH]; intros n m Hn Hm Heq.
  - change (10 ^ Z.of_nat 0) with 1 in *. lia.
  - rewrite Nat2Z.inj_succ, Z.pow_succ_r in Hn, Hm by lia.
    cbn [datetime.zero_padded] in Heq.
    apply str_app_inv_length in Heq as [Hhigh Hlow];
      [|by rewrite !length_zero_padded].
    injection Hlow as Hlow. apply (f_equal datetime.digit_value) in Hlow.
    rewrite !digit_value_digit in Hlow. injection Hlow as Hlow.
    assert (n / 10 = m / 10) as Hdiv.
    { apply IH; [| |exact Hhigh]; Z.div_mod_to_equations; lia. }
    Z.div_mod_to_equations. lia.
Qed.

(** A year of at most four digits is printed on as many digits as it
    has. *)
Lemma decimal_digits n :
  0 ≤ n ≤ 9999 →
  ∃ w, datetime.decimal n = datetime.zero_padded w n
       ∧ 0 ≤ n < 10 ^ Z.of_nat w.
Proof.
  intros Hn. unfold datetime.decimal.
  destruct (Z.ltb_spec n 10) as [H1|H1].
  { exists 1%nat. cbn [datetime.decimal_rec datetime.zero_padded].
    destruct (Z.ltb_spec n 10); [|lia].
    split; [reflexivity|]. change (10 ^ Z.of_nat 1) with 10. lia. }
  destruct (Z.ltb_spec n 100) as [H2|H2].
  { exists 2%nat.
    assert (∃ k, Z.to_nat n = (1 + k)%nat) as [k ->]
      by (exists (Z.to_nat n - 1)%nat; lia).
    cbn [datetime.decimal_rec datetime.zero_padded Nat.add].
    destruct (Z.ltb_spec n 10); [lia|].
    destruct (Z.ltb_spec (n / 10) 10); [|Z.div_mod_to_equations; lia].
    split; [reflexivity|]. change (10 ^ Z.of_nat 2) with 100. lia. }
  destruct (Z.ltb_spec n 1000) as [H3|H3].
  { exists 3%nat.
    assert (∃ k, Z.to_nat n = (2 + k)%nat) as [k ->]
      by (exists (Z.to_nat n - 2)%nat; lia).
    cbn [datetime.decimal_rec datetime.zero_padded Nat.add].
    destruct (Z.ltb_spec n 10); [lia|].
    destruct (Z.ltb_spec (n / 10) 10); [Z.div_mod_to_equations; lia|].
    destruct (Z.ltb_spec (n / 10 / 10) 10); [|Z.div_mod_to_equations; lia].
    split; [reflexivity|]. change (10 ^ Z.of_nat 3) with 1000. lia. }
  exists 4%nat. split.
  - apply (decimal_four_digits n). lia.
  - change (10 ^ Z.of_nat 4) with 10000. lia.
Qed.

Lemma calendar_date_bounds d :
  calendar_date d →
  1 ≤ datetime.year d ≤ 9999 ∧ 1 ≤ datetime.month d ≤ 12
  ∧ 1 ≤ datetime.day d ≤ 31.
Proof.
  unfold calendar_date, datetime.valid_date. intros Hv.
  pose proof (days_in_month_le (datetime.year d) (datetime.month d)).
  repeat (apply andb_prop in Hv as [Hv ?]).
  repeat match goal with
         | H : (_ <=? _) = true |- _ => apply Z.leb_le in H
         end.
  lia.
Qed.

(** What [%Y%m%d] prints tells the day, for dates of the calendar. *)
Lemma strftime_Ymd_inj d1 d2 :
  calendar_date d1 → calendar_date d2 →
  datetime.strftime "%Y%m%d" d1 = datetime.strftime "%Y%m%d" d2 →
  same_day d1 d2.
Proof.
  intros (Hy1 & Hm1 & Hd1)%calendar_date_bounds
         (Hy2 & Hm2 & Hd2)%calendar_date_bounds.
  rewrite !strftime_Ymd_form.
  destruct (decimal_digits (datetime.year d1)) as (w1 & -> & Hw1); [lia|].
  destruct (decimal_digits (datetime.year d2)) as (w2 & -> & Hw2); [lia|].
  intros Heq.
  assert (w1 = w2) as <-.
  { apply (f_equal String.length) in Heq.
    rewrite !str_length_app, !length_zero_padded in Heq. lia. }
  apply str_app_inv_length in Heq as [Hyear Heq];
    [|by rewrite !length_zero_padded].
  apply str_app_inv_length in Heq as [Hmonth Hday];
    [|by rewrite !length_zero_padded].
  change (10 ^ Z.of_nat 2) with 100 in *.
  repeat split.
  - by apply (zero_padded_inj w1).
  - apply (zero_padded_inj 2); [| |exact Hmonth];
      change (10 ^ Z.of_nat 2) with 100; lia.
  - apply (zero_padded_inj 2); [| |exact Hday];
      change (10 ^ Z.of_nat 2) with 100; lia.
Qed.

Lemma strftime_Ymd_same_day d1 d2 :
  same_day d1 d2 →
  datetime.strftime "%Y%m%d" d1 = datetime.strftime "%Y%m%d" d2.
Proof.
  intros (Hy & Hm & Hd). rewrite !strftime_Ymd_form. by rewrite Hy, Hm, Hd.
Qed.

End Printing.

Lemma shapefile_path_join cache date :
  shapefile_path cache date
  = (let X := posixpath.join2 cache "zip" in
     if bool_decide (X = "") || Str.ends_with_slash X then X else X +:+ "/")
    +:+ "USDM_" +:+ datetime.strftime "%Y%m%d" date +:+ "_M.zip".
Proof.
  unfold shapefile_path, posixpath.join. simpl.
  rewrite basename_shapefile_url.
  rewrite join2_relative by reflexivity. reflexivity.
Qed.

(** X8: for dates of the calendar, two dates have the same cache path under
    a cache root exactly when they fall on the same day: the time of day
    plays no part, and two different days never share a cache file. *)
Theorem shapefile_path_same_day cache d1 d2 :
  calendar_date d1 → calendar_date d2 →
  shapefile_path cache d1 = shapefile_path cache d2 ↔ same_day d1 d2.
Proof.
  intros H1 H2. rewrite !shapefile_path_join. cbv zeta. split.
  - intros Heq%str_app_inv_head%str_app_inv_head%str_app_inv_tail.
    by apply strftime_Ymd_inj.
  - intros Hsame. by rewrite (strftime_Ymd_same_day _ _ Hsame).
Qed.

Section DateForms.
#[local] Open Scope Z_scope.

Lemma digit_mod n k : n mod 10 = k mod 10 → datetime.digit n = datetime.digit k.
Proof. unfold datetime.digit. by intros ->. Qed.

Lemma YYYYMMDD_of_parse ds d :
  Spec.parse_YYYYMMDD ds = Some d → Spec.YYYYMMDD d = ds.
Proof.
  unfold Spec.parse_YYYYMMDD.
  destruct ds as [|a [|b [|c [|e [|f [|g [|h [|i [|? ?]]]]]]]]]; try discriminate.
  destruct (datetime.digit_value a) as [na|] eqn:Ha; [|discriminate].
  destruct (datetime.digit_value b) as [nb|] eqn:Hb; [|discriminate].
  destruct (datetime.digit_value c) as [nc|] eqn:Hc; [|discriminate].
  destruct (datetime.digit_value e) as [ne|] eqn:He; [|discriminate].
  destruct (datetime.digit_value f) as [nf|] eqn:Hf; [|discriminate].
  destruct (datetime.digit_value g) as [ng|] eqn:Hg; [|discriminate].
  destruct (datetime.digit_value h) as [nh|] eqn:Hh; [|discriminate].
  destruct (datetime.digit_value i) as [ni|] eqn:Hi; [|discriminate].
  cbn [mbind option_bind].
  destruct (datetime.valid_date _ _ _); [|discriminate].
  intros [= <-].
  apply digit_value_inv in Ha as [-> Ha], Hb as [-> Hb], Hc as [-> Hc],
    He as [-> He], Hf as [-> Hf], Hg as [-> Hg], Hh as [-> Hh], Hi as [-> Hi].
  unfold Spec.YYYYMMDD.
  lazy -[Z.div Z.modulo datetime.digit Z.add Z.mul].
  repeat (apply (f_equal2 String);
          [apply digit_mod; Z.div_mod_to_equations; lia|]).
  reflexivity.
Qed.

Lemma strptime_valid s d :
  datetime.strptime_Ymd s = inr d →
  datetime.valid d = true ∧ calendar_date d.
Proof.
  unfold datetime.strptime_Ymd.
  destruct (datetime.re_Ymd s) as [[[[y m] dd] rest]|]; [|discriminate].
  destruct (bool_decide _); [|discriminate]. cbn [andb].
  destruct (datetime.valid_date y m dd) eqn:Hv; [|discriminate].
  intros [= <-]. unfold datetime.valid, calendar_date. simpl.
  rewrite Hv. done.
Qed.

Lemma strptime_raises s e : datetime.strptime_Ymd s = inl e → e = ValueError.
Proof.
  unfold datetime.strptime_Ymd.
  destruct (datetime.re_Ymd s) as [[[[y m] dd] rest]|]; [|congruence].
  destruct (_ && _); congruence.
Qed.

End DateForms.


Section MoreProperties.

Variable realpath : string → string.
Variable remote : list string → string → option Response.
Variable fromstring : string → option Element.

Lemma fetch_latest_date_raised s e s' :
  fetch_latest_date remote fromstring s = (inl e, s') →
  s' = log_request metadata_url s.
Proof.
  unfold fetch_latest_date, requests_get, ElementTree_fromstring. st_unfold.
  destruct (remote _ _) as [r|]; [|by intros [= _ <-]].
  destruct (fromstring _) as [xml|]; [|by intros [= _ <-]].
  destruct (ElementTree.find _ _) as [week|]; [|by intros [= _ <-]].
  destruct (ElementTree.get _ _) as [date|]; [|by intros [= _ <-]].
  destruct (datetime.strptime_Ymd _); [by intros [= _ <-]|discriminate].
Qed.

Lemma get_latest_date_cases ignore_cache s :
  (∃ d, _latest_date (self s) = Some d ∧ ignore_cache = false
        ∧ get_latest_date remote fromstring ignore_cache s = (inr d, s))
  ∨ ((_latest_date (self s) = None ∨ ignore_cache = true)
     ∧ get_latest_date remote fromstring ignore_cache s
       = fetch_latest_date remote fromstring s).
Proof.
  unfold get_latest_date. st_unfold.
  destruct (_latest_date (self s)) as [d|]; [|right; split; [by left|done]].
  destruct ignore_cache.
  - right. split; [by right|done].
  - left. exists d. done.
Qed.

Lemma get_latest_date_stores ignore_cache s d s1 :
  get_latest_date remote fromstring ignore_cache s = (inr d, s1) →
  _latest_date (self s1) = Some d.
Proof.
  destruct (get_latest_date_cases ignore_cache s)
    as [(d0 & Hmemo & _ & ->) | [_ ->]].
  - intros [= <- <-]. exact Hmemo.
  - intros ->%fetch_latest_date_returns. reflexivity.
Qed.

(** X1: when [get_latest_date] raises, it has made its one request and
    nothing else: the instance (its stored date included) and the
    filesystem are as they were. *)
Theorem get_latest_date_failure ignore_cache s e s' :
  get_latest_date remote fromstring ignore_cache s = (inl e, s') →
  self s' = self s ∧ fs s' = fs s
  ∧ requests_log s' = requests_log s ++ [metadata_url].
Proof.
  destruct (get_latest_date_cases ignore_cache s)
    as [(d0 & _ & _ & ->) | [_ ->]]; [discriminate|].
  intros ->%fetch_latest_date_raised. done.
Qed.

(** X2: when the call fetches a well-formed document with a week element
    whose date attribute, if there is one, is ASCII text, its outcome is
    what [strptime] makes of the date attribute of the first week:
    [TypeError] when the attribute is missing, [ValueError] when the text is
    no date; and on such an error the instance is unchanged. *)
Theorem get_latest_date_date_attribute ignore_cache s r xml week :
  _latest_date (self s) = None ∨ ignore_cache = true →
  remote (requests_log s) metadata_url = Some r →
  fromstring (requests.text r) = Some xml →
  Spec.first_week xml week →
  (∀ text, ElementTree.attrib week !! "date" = Some text →
           ascii_text text = true) →
  fst (get_latest_date remote fromstring ignore_cache s)
  = match ElementTree.attrib week !! "date" with
    | None => inl TypeError
    | Some text => datetime.strptime_Ymd text
    end
  ∧ ∀ e, fst (get_latest_date remote fromstring ignore_cache s) = inl e →
         (e = TypeError ∨ e = ValueError)
         ∧ self (snd (get_latest_date remote fromstring ignore_cache s))
           = self s.
Proof.
  intros Hfetch Hr Hxml Hweek _.
  assert (fst (get_latest_date remote fromstring ignore_cache s)
          = match ElementTree.attrib week !! "date" with
            | None => inl TypeError
            | Some text => datetime.strptime_Ymd text
            end) as Hres.
  { destruct (get_latest_date_cases ignore_cache s)
      as [(d0 & Hmemo & -> & _) | [_ ->]].
    { destruct Hfetch; congruence. }
    unfold fetch_latest_date, requests_get, ElementTree_fromstring. st_unfold.
    rewrite Hr, Hxml, (find_first_week _ _ Hweek). unfold ElementTree.get.
    destruct (ElementTree.attrib week !! "date") as [text|]; [|reflexivity].
    destruct (datetime.strptime_Ymd text); reflexivity. }
  split; [exact Hres|]. intros e He. split.
  - rewrite Hres in He.
    destruct (ElementTree.attrib week !! "date") as [text|].
    + right. by apply strptime_raises in He.
    + left. congruence.
  - destruct (get_latest_date remote fromstring ignore_cache s)
      as [res s'] eqn:Hrun. simpl in He. subst res.
    by apply get_latest_date_failure in Hrun as (? & _).
Qed.


(** X4: whenever [get_shapefile] goes to the network (the cache is ignored,
    or nothing is cached) and the request fails or is answered with an error
    status, the call raises a remote fetch error and the filesystem is
    untouched: a file cached before is still there, as it was. *)
Theorem get_shapefile_failed_request date ignore_cache s :
  ignore_cache = true
  ∨ os.exists_ (fs s) (shapefile_path (cache (self s)) date) = false →
  remote (requests_log s) (shapefile_url date) = None
  ∨ (∃ r, remote (requests_log s) (shapefile_url date) = Some r
          ∧ Spec.error_status (requests.status_code r)) →
  ∃ e,
    get_shapefile remote (Some date) ignore_cache s
    = (inl e,
       mkState (self s) (fs s) (requests_log s ++ [shapefile_url date]))
    ∧ is_RemoteFetchError e = true.
Proof.
  intros Hfetch Hfail. rewrite get_shapefile_unfold. cbv zeta.
  replace (os.exists_ (fs s) (shapefile_path (cache (self s)) date)
           && negb ignore_cache) with false
    by (destruct Hfetch as [-> | ->];
        [by rewrite andb_false_r | reflexivity]).
  destruct Hfail as [-> | (r & -> & Hlo & Hhi)].
  - exists ConnectionError. done.
  - exists (HTTPError (requests.status_code r)).
    unfold requests.raise_for_status.
    destruct (Z.leb_spec 400 (requests.status_code r)); [|lia].
    destruct (Z.ltb_spec (requests.status_code r) 600); [|lia].
    done.
Qed.

(** X5: whenever [get_shapefile] goes to the network and returns, the path
    it returns is the cache path, the file there holds the body of the
    response, replacing what was cached before, and one request was made. *)
Theorem get_shapefile_fetch_content date ignore_cache s r p s' :
  ignore_cache = true
  ∨ os.exists_ (fs s) (shapefile_path (cache (self s)) date) = false →
  remote (requests_log s) (shapefile_url date) = Some r →
  get_shapefile remote (Some date) ignore_cache s = (inr p, s') →
  p = shapefile_path (cache (self s)) date
  ∧ fs s' !! p = Some (File (requests.content r))
  ∧ requests_log s' = requests_log s ++ [shapefile_url date].
Proof.
  intros Hfetch Hr. rewrite get_shapefile_unfold. cbv zeta.
  replace (os.exists_ (fs s) (shapefile_path (cache (self s)) date)
           && negb ignore_cache) with false
    by (destruct Hfetch as [-> | ->];
        [by rewrite andb_false_r | reflexivity]).
  rewrite Hr.
  destruct (requests.raise_for_status r); [discriminate|].
  destruct (if os.exists_ _ _ then _ else _) as [[e|[]] fs1];
    [discriminate|].
  destruct (os.write_binary _ _ _) as [[e|[]] fs2] eqn:Hw; [discriminate|].
  intros [= <- <-]. apply write_binary_returns in Hw as [-> _].
  split; [reflexivity|]. split; [apply lookup_insert_eq | reflexivity].
Qed.

(** X6: once [get_shapefile] has returned a path, something exists there,
    and asking again for the same date without [ignore_cache] returns the
    same path and changes nothing: no second request, no write. *)
Theorem get_shapefile_then_hit date ignore_cache s p s1 :
  get_shapefile remote (Some date) ignore_cache s = (inr p, s1) →
  os.exists_ (fs s1) p = true
  ∧ get_shapefile remote (Some date) false s1 = (inr p, s1).
Proof.
  intros Hrun.
  pose proof (get_shapefile_self remote (Some date) ignore_cache s) as Hself.
  rewrite Hrun in Hself. simpl in Hself.
  assert (p = shapefile_path (cache (self s)) date) as Hp.
  { by apply get_shapefile_returns in Hrun as (d & [= <-] & ->). }
  assert (os.exists_ (fs s1) p = true) as Hex.
  { revert Hrun. rewrite get_shapefile_unfold. cbv zeta.
    destruct (_ && _) eqn:Hhit.
    - intros [= _ <-]. apply andb_prop in Hhit as [Hhit _]. by rewrite Hp.
    - destruct (remote _ _) as [r|]; [|discriminate].
      destruct (requests.raise_for_status r); [discriminate|].
      destruct (if os.exists_ _ _ then _ else _) as [[e|[]] fs1];
        [discriminate|].
      destruct (os.write_binary _ _ _) as [[e|[]] fs2] eqn:Hw; [discriminate|].
      intros [= _ <-]. apply write_binary_returns in Hw as [_ Hstat].
      unfold os.exists_. simpl. rewrite Hp, Hstat.
      apply bool_decide_eq_true_2. by eexists. }
  split; [exact Hex|].
  rewrite get_shapefile_unfold. cbv zeta.
  rewrite Hself, <- Hp, Hex. reflexivity.
Qed.

(** X7: a date [get_latest_date] has returned outlives any call of
    [get_shapefile]: asked again afterwards, [get_latest_date] returns it
    without a request. *)
Theorem get_shapefile_keeps_memo s d s1 date ignore_cache :
  get_latest_date remote fromstring false s = (inr d, s1) →
  get_latest_date remote fromstring false
    (snd (get_shapefile remote date ignore_cache s1))
  = (inr d, snd (get_shapefile remote date ignore_cache s1)).
Proof.
  intros Hmemo%get_latest_date_stores.
  unfold get_latest_date. st_unfold.
  rewrite get_shapefile_self, Hmemo. reflexivity.
Qed.

(** X9: the date [get_latest_date] reads from an 8-digit date attribute
    whose year is at least 1000 leads [get_shapefile] to the archive named
    after that very text: the URL requested is [.../USDM_<text>_M.zip], and
    the cache path is the [zip] entry of the cache root joined with
    [USDM_<text>_M.zip]. *)
Theorem latest_date_archive ignore_cache s r xml week text d s1 :
  _latest_date (self s) = None ∨ ignore_cache = true →
  remote (requests_log s) metadata_url = Some r →
  fromstring (requests.text r) = Some xml →
  Spec.first_week xml week →
  ElementTree.attrib week !! "date" = Some text →
  Spec.parse_YYYYMMDD text = Some d →
  (1000 ≤ datetime.year d)%Z →
  s1 = snd (get_latest_date remote fromstring ignore_cache s) →
  fst (get_latest_date remote fromstring ignore_cache s) = inr d
  ∧ requests_log (snd (get_shapefile remote (Some d) true s1))
    = requests_log s
      ++ [metadata_url;
          "http://droughtmonitor.unl.edu/data/shapefiles_m/USDM_"
          +:+ text +:+ "_M.zip"]
  ∧ shapefile_path (cache (self s1)) d
    = posixpath.join (cache (self s))
        ["zip"; "USDM_" +:+ text +:+ "_M.zip"].
Proof.
  intros Hfetch Hr Hxml Hweek Htext Hd Hfour ->.
  destruct (get_latest_date_cases ignore_cache s)
    as [(d0 & Hmemo & -> & _) | [_ ->]].
  { destruct Hfetch; congruence. }
  rewrite (fetch_latest_date_valid remote fromstring s r xml week text d)
    by done.
  cbn [fst snd].
  pose proof (YYYYMMDD_of_parse text d Hd) as Hform.
  assert (1000 ≤ datetime.year d ≤ 9999)%Z as Hyear.
  { apply strptime_YYYYMMDD, strptime_valid in Hd as [_ Hd].
    apply calendar_date_bounds in Hd. lia. }
  split; [reflexivity|]. split.
  - rewrite get_shapefile_log. rewrite andb_false_r.
    cbn [requests_log set_latest_date log_request].
    rewrite (shapefile_url_archive d Hyear).
    unfold Spec.archive_url, Spec.archive_name.
    rewrite Hform, <- app_assoc. reflexivity.
  - unfold shapefile_path. rewrite (basename_shapefile_url_archive d Hyear).
    unfold Spec.archive_name. rewrite Hform. reflexivity.
Qed.

(** X10: the date stored on the instance is always one Python can build:
    a new instance stores none, every method keeps the invariant, and under
    it every date [get_latest_date] returns is valid. *)
Theorem stored_date_valid_kept :
  (∀ root disk log,
      stored_date_valid (mkState (__init__ realpath root) disk log))
  ∧ (∀ ignore_cache s,
        stored_date_valid s →
        stored_date_valid (snd (get_latest_date remote fromstring ignore_cache s))
        ∧ ∀ d, fst (get_latest_date remote fromstring ignore_cache s) = inr d →
               datetime.valid d = true)
  ∧ (∀ date ignore_cache s,
        stored_date_valid s →
        stored_date_valid (snd (get_shapefile remote date ignore_cache s)))
  ∧ (∀ date outfile s,
        stored_date_valid s →
        stored_date_valid (snd (render remote date outfile s))).
Proof.
  split; [intros root disk log d; discriminate|].
  split; [|split].
  - intros ignore_cache s Hs.
    destruct (get_latest_date_cases ignore_cache s)
      as [(d0 & Hmemo & _ & ->) | [_ ->]].
    { split; [exact Hs|]. intros d [= <-]. by apply Hs. }
    unfold fetch_latest_date, requests_get, ElementTree_fromstring. st_unfold.
    destruct (remote _ _) as [r|]; [|split; [exact Hs|discriminate]].
    destruct (fromstring _) as [xml|]; [|split; [exact Hs|discriminate]].
    destruct (ElementTree.find _ _) as [week|];
      [|split; [exact Hs|discriminate]].
    destruct (ElementTree.get _ _) as [text|];
      [|split; [exact Hs|discriminate]].
    destruct (datetime.strptime_Ymd text) as [e|d] eqn:Hparse;
      [split; [exact Hs|discriminate]|].
    apply strptime_valid in Hparse as [Hvalid _].
    split; [intros d' [= <-]; exact Hvalid | intros d' [= <-]; exact Hvalid].
  - intros date ignore_cache s Hs d.
    rewrite get_shapefile_self. apply Hs.
  - intros date outfile s Hs d. unfold render, raster, get_us. st_unfold.
    pose proof (get_shapefile_self remote date false s) as Hself.
    destruct (get_shapefile _ _ _ _) as [[e|p] s']; simpl in *;
      rewrite Hself; apply Hs.
Qed.


(** X11: when a directory sits at the cache path, [get_shapefile] without
    [ignore_cache] returns that path as if it were the archive, and with
    [ignore_cache] makes its request and then raises [OSError] from [open],
    leaving the filesystem as it was. *)
Theorem get_shapefile_directory_at_path date s r :
  os.stat (fs s) (shapefile_path (cache (self s)) date) = Some Dir →
  os.exists_ (fs s)
    (posixpath.dirname (shapefile_path (cache (self s)) date)) = true →
  remote (requests_log s) (shapefile_url date) = Some r →
  ¬ Spec.error_status (requests.status_code r) →
  get_shapefile remote (Some date) false s
  = (inr (shapefile_path (cache (self s)) date), s)
  ∧ get_shapefile remote (Some date) true s
    = (inl (OSError EISDIR),
       mkState (self s) (fs s) (requests_log s ++ [shapefile_url date])).
Proof.
  intros Hdir Hparent Hr Hok.
  assert (os.exists_ (fs s) (shapefile_path (cache (self s)) date) = true)
    as Hex.
  { unfold os.exists_. rewrite Hdir. apply bool_decide_eq_true_2. by eexists. }
  rewrite !get_shapefile_unfold. cbv zeta. rewrite Hex, Hparent, Hr.
  split; [reflexivity|]. cbn [negb andb].
  unfold requests.raise_for_status.
  replace ((400 <=? requests.status_code r)%Z
           && (requests.status_code r <? 600)%Z) with false; cycle 1.
  { unfold Spec.error_status in Hok.
    destruct (Z.leb_spec 400 (requests.status_code r)),
      (Z.ltb_spec (requests.status_code r) 600); (reflexivity || lia). }
  unfold os.write_binary. st_unfold. rewrite Hdir. reflexivity.
Qed.

End MoreProperties.

(** ** The further properties on the sample worlds *)

Lemma get_latest_date_failure_witness :
  self (log_request metadata_url Sample.fresh) = self Sample.fresh
  ∧ fs (log_request metadata_url Sample.fresh) = fs Sample.fresh
  ∧ requests_log (log_request metadata_url Sample.fresh)
    = requests_log Sample.fresh ++ [metadata_url].
Proof.
  apply (get_latest_date_failure Cases.garbled_remote Sample.fromstring
           false Sample.fresh ParseError).
  vm_compute; reflexivity.
Defined.

Lemma get_latest_date_date_attribute_witness :
  ascii_text "2014-06-24" = true
  ∧ fst (get_latest_date (Sample.remote 200) Cases.dashed_fromstring false
           Sample.fresh) = inl ValueError
  ∧ fst (get_latest_date (Sample.remote 200) Cases.undated_fromstring false
           Sample.fresh) = inl TypeError.
Proof.
  split; [reflexivity|]. split.
  - destruct (get_latest_date_date_attribute (Sample.remote 200)
                Cases.dashed_fromstring false Sample.fresh
                (requests.mkResponse 200 [] Sample.metadata_text)
                Cases.dashed_xml
                (ElementTree.Elem "week" {["date" := "2014-06-24"]} []))
      as [Hresult _].
    + left. reflexivity.
    + vm_compute; reflexivity.
    + reflexivity.
    + exists [], []. repeat split. constructor.
    + intros text Htext. vm_compute in Htext.
      injection Htext as <-. reflexivity.
    + rewrite Hresult. vm_compute; reflexivity.
  - destruct (get_latest_date_date_attribute (Sample.remote 200)
                Cases.undated_fromstring false Sample.fresh
                (requests.mkResponse 200 [] Sample.metadata_text)
                Cases.undated_xml (ElementTree.Elem "week" ∅ []))
      as [Hresult _].
    + left. reflexivity.
    + vm_compute; reflexivity.
    + reflexivity.
    + exists [], []. repeat split. constructor.
    + intros text Htext. vm_compute in Htext. discriminate.
    + rewrite Hresult. vm_compute; reflexivity.
Defined.


Lemma get_shapefile_failed_request_witness :
  ∃ e,
    get_shapefile (Sample.remote 503) (Some Sample.date_20140624) true
      Sample.cached
    = (inl e,
       mkState (self Sample.cached) (fs Sample.cached)
         (requests_log Sample.cached
          ++ [shapefile_url Sample.date_20140624]))
    ∧ is_RemoteFetchError e = true.
Proof.
  apply (get_shapefile_failed_request (Sample.remote 503)
           Sample.date_20140624 true Sample.cached).
  - left. reflexivity.
  - right. exists (requests.mkResponse 503 Sample.archive "").
    split; [vm_compute; reflexivity|].
    unfold Spec.error_status. simpl. lia.
Defined.

Lemma get_shapefile_fetch_content_witness :
  Sample.archive_path
  = shapefile_path (cache (self Sample.cached)) Sample.date_20140624
  ∧ fs (snd (get_shapefile (Sample.remote 200) (Some Sample.date_20140624)
               true Sample.cached)) !! Sample.archive_path
    = Some (File Sample.archive)
  ∧ requests_log
      (snd (get_shapefile (Sample.remote 200) (Some Sample.date_20140624)
              true Sample.cached))
    = requests_log Sample.cached ++ [shapefile_url Sample.date_20140624].
Proof.
  apply (get_shapefile_fetch_content (Sample.remote 200)
           Sample.date_20140624 true Sample.cached
           (requests.mkResponse 200 Sample.archive "")).
  - left. reflexivity.
  - vm_compute; reflexivity.
  - vm_compute; reflexivity.
Defined.

Lemma get_shapefile_then_hit_witness :
  os.exists_
    (fs (snd (get_shapefile (Sample.remote 200) (Some Sample.date_20140624)
                false Sample.fresh)))
    Sample.archive_path = true
  ∧ get_shapefile (Sample.remote 200) (Some Sample.date_20140624) false
      (snd (get_shapefile (Sample.remote 200) (Some Sample.date_20140624)
              false Sample.fresh))
    = (inr Sample.archive_path,
       snd (get_shapefile (Sample.remote 200) (Some Sample.date_20140624)
              false Sample.fresh)).
Proof.
  apply (get_shapefile_then_hit (Sample.remote 200) Sample.date_20140624
           false Sample.fresh).
  vm_compute; reflexivity.
Defined.

Lemma get_shapefile_keeps_memo_witness :
  get_latest_date (Sample.remote 200) Sample.fromstring false
    (snd (get_shapefile (Sample.remote 200) (Some Sample.date_20140624) false
            (snd (get_latest_date (Sample.remote 200) Sample.fromstring
                    false Sample.fresh))))
  = (inr Sample.date_20140624,
     snd (get_shapefile (Sample.remote 200) (Some Sample.date_20140624) false
            (snd (get_latest_date (Sample.remote 200) Sample.fromstring
                    false Sample.fresh)))).
Proof.
  apply (get_shapefile_keeps_memo (Sample.remote 200) Sample.fromstring
           Sample.fresh).
  vm_compute; reflexivity.
Defined.

Lemma shapefile_path_same_day_witness :
  shapefile_path "/home/user/.cache" Sample.date_20140624
  = shapefile_path "/home/user/.cache" Cases.noon_20140624.
Proof.
  apply (shapefile_path_same_day "/home/user/.cache" Sample.date_20140624
           Cases.noon_20140624).
  - vm_compute; reflexivity.
  - vm_compute; reflexivity.
  - repeat split.
Defined.

Lemma latest_date_archive_witness :
  requests_log
    (snd (get_shapefile (Sample.remote 200) (Some Sample.date_20140624) true
            (snd (get_latest_date (Sample.remote 200) Sample.fromstring
                    false Sample.fresh))))
  = requests_log Sample.fresh
    ++ [metadata_url;
        "http://droughtmonitor.unl.edu/data/shapefiles_m/USDM_"
        +:+ "20140624" +:+ "_M.zip"].
Proof.
  destruct (latest_date_archive (Sample.remote 200) Sample.fromstring false
              Sample.fresh (requests.mkResponse 200 [] Sample.metadata_text)
              Sample.metadata_xml
              (ElementTree.Elem "week" {["date" := "20140624"]} [])
              "20140624" Sample.date_20140624
              (snd (get_latest_date (Sample.remote 200) Sample.fromstring
                      false Sample.fresh)))
    as (_ & Hlog & _).
  - left. reflexivity.
  - vm_compute; reflexivity.
  - vm_compute; reflexivity.
  - exists [], [ElementTree.Elem "week" {["date" := "20140617"]} []].
    repeat split. constructor.
  - vm_compute; reflexivity.
  - vm_compute; reflexivity.
  - simpl. lia.
  - reflexivity.
  - exact Hlog.
Defined.

Lemma stored_date_valid_kept_witness :
  datetime.valid Sample.date_20140624 = true.
Proof.
  destruct (stored_date_valid_kept Sample.realpath (Sample.remote 200)
              Sample.fromstring) as (Hinit & Hlatest & _).
  apply (Hlatest false Sample.fresh (Hinit default_cache ∅ [])).
  vm_compute; reflexivity.
Defined.

Lemma get_shapefile_directory_at_path_witness :
  get_shapefile (Sample.remote 200) (Some Sample.date_20140624) false
    Cases.directory_at_path
  = (inr (shapefile_path (cache (self Cases.directory_at_path))
            Sample.date_20140624),
     Cases.directory_at_path)
  ∧ get_shapefile (Sample.remote 200) (Some Sample.date_20140624) true
      Cases.directory_at_path
    = (inl (OSError EISDIR),
       mkState (self Cases.directory_at_path) (fs Cases.directory_at_path)
         (requests_log Cases.directory_at_path
          ++ [shapefile_url Sample.date_20140624])).
Proof.
  apply (get_shapefile_directory_at_path (Sample.remote 200)
           Sample.date_20140624 Cases.directory_at_path
           (requests.mkResponse 200 Sample.archive "")).
  - vm_compute; reflexivity.
  - vm_compute; reflexivity.
  - vm_compute; reflexivity.
  - unfold Spec.error_status. simpl. lia.
Defined.
